(** * real_time_chat: membership, rooms and the socket handlers

    A shallow embedding of the chat server (socket/sockerHandler.js,
    controllers/channelsController.js, controllers/authController.js,
    config/initDatabase.js, routes/channels.js) and of the client's message
    form (components/Chat/MessageInput.jsx, ChatRoom.jsx, MemberList.jsx).

    Conventions of the embedding.
    - A table is the list of its rows in insertion order; the constraints
      declared in initDatabase.js (PRIMARY KEY, UNIQUE, REFERENCES) are
      checked by the insert functions, and a violated constraint is the
      exception the handlers catch.
    - Identifiers are integers.  They travel as JSON numbers on the socket
      and as decimal numerals in URLs ([/members/${member.id}]); both are
      modelled by the integer they denote, so [parseInt(userId)] is the
      identity on a route parameter.  A parameter spelled in another way,
      which [parseInt] and PostgreSQL might read differently, is outside
      the model.
    - The id columns are INTEGER.  A statement whose parameter is compared
      with one of them raises when the parameter is outside the range of
      that type, and the handler's [catch] answers; see [Sql.int4].
    - Names, addresses and descriptions are strings of 8-bit characters; a
      VARCHAR(n) column takes [n] of them and no text holds the character
      of code 0; see [Sql.varchar].
    - ORDER BY leaves the order of rows with equal keys open.  The queries
      are functions here, with the order a merge sort gives; for the
      message history the orders PostgreSQL may choose are given as well,
      see [query_channel_messages].
    - socket.io's rooms are a finite map from the channel of the room
      [channel_${channelId}] to the finite set of socket ids in it.
    - A handler returns the new state and the list of [emit] calls it made,
      in program order; every call carries the set of sockets it reaches. *)

From Stdlib Require Import ZArith NArith Bool.
From stdpp Require Import gmap strings list sorting.

Set Warnings "-clear-no-such-hyp".

Local Open Scope string_scope.
Local Open Scope list_scope.
Local Open Scope Z_scope.

(** ** JavaScript strings *)

(** A JavaScript string is a sequence of UTF-16 code units. *)
Abbreviation js_string := (list N).

Module Js.

(** WhiteSpace and LineTerminator code points of ECMAScript, the ones
    [String.prototype.trim] strips. *)
Definition is_whitespace (c : N) : bool :=
  ((c =? 0x0009) || (c =? 0x000A) || (c =? 0x000B) || (c =? 0x000C)
   || (c =? 0x000D) || (c =? 0x0020) || (c =? 0x00A0) || (c =? 0x1680)
   || ((0x2000 <=? c) && (c <=? 0x200A))
   || (c =? 0x2028) || (c =? 0x2029) || (c =? 0x202F) || (c =? 0x205F)
   || (c =? 0x3000) || (c =? 0xFEFF))%N.

Fixpoint trimStart (s : js_string) : js_string :=
  match s with
  | [] => []
  | c :: s' => if is_whitespace c then trimStart s' else s
  end.

Definition trimEnd (s : js_string) : js_string :=
  reverse (trimStart (reverse s)).

Definition trim (s : js_string) : js_string := trimEnd (trimStart s).

(** Truthiness of a string: only the empty string is falsy. *)
Definition truthy (s : js_string) : bool :=
  match s with [] => false | _ :: _ => true end.

End Js.

(** ** The database (config/initDatabase.js) *)

Record user_row := {
  u_id : Z;
  u_username : string;
  u_email : string;
  u_avatar_color : string }.

Record channel_row := {
  c_id : Z;
  c_name : string;
  c_description : string;
  creator_id : Z }.

Record member_row := {
  cm_id : Z;
  cm_channel_id : Z;
  cm_user_id : Z;
  cm_joined_at : Z }.

Record message_row := {
  m_id : Z;
  m_channel_id : Z;
  m_user_id : Z;
  m_content : js_string;
  m_created_at : Z }.

(** The four tables and the sequences behind their SERIAL columns. *)
Record database := {
  users : list user_row;
  channels : list channel_row;
  channel_members : list member_row;
  messages : list message_row;
  users_id_seq : Z;
  channels_id_seq : Z;
  channel_members_id_seq : Z;
  messages_id_seq : Z }.

Definition empty_database : database :=
  {| users := []; channels := []; channel_members := []; messages := [];
     users_id_seq := 1; channels_id_seq := 1;
     channel_members_id_seq := 1; messages_id_seq := 1 |}.

Module Sql.

(** [SELECT * FROM users WHERE id = $1] *)
Definition select_user (db : database) (id : Z) : list user_row :=
  filter (λ u, u_id u = id) (users db).

(** [SELECT * FROM users WHERE email = $1 OR username = $2] *)
Definition select_user_by_email_or_username
    (db : database) (email username : string) : list user_row :=
  filter (λ u, u_email u = email ∨ u_username u = username) (users db).

(** [SELECT creator_id FROM channels WHERE id = $1] *)
Definition select_channel (db : database) (id : Z) : list channel_row :=
  filter (λ c, c_id c = id) (channels db).

(** [SELECT * FROM channel_members WHERE channel_id = $1 AND user_id = $2] *)
Definition select_member (db : database) (channelId userId : Z)
    : list member_row :=
  filter (λ r, cm_channel_id r = channelId ∧ cm_user_id r = userId)
         (channel_members db).

(** The range of an INTEGER column.  PostgreSQL reads a parameter that is
    compared with such a column as an INTEGER and raises when it is out
    of this range. *)
Definition int4 (z : Z) : Prop := -2147483648 ≤ z ≤ 2147483647.

(** The range of LIMIT and OFFSET, which are BIGINT. *)
Definition int8 (z : Z) : Prop :=
  -9223372036854775808 ≤ z ≤ 9223372036854775807.

(** A text parameter cannot hold the character of code 0, and a
    VARCHAR(n) column takes at most [n] characters.  A value that does not
    fit is refused when the statement is bound and planned, before a row
    is built or a sequence read. *)
Definition text (s : string) : Prop :=
  Ascii.zero ∉ String.list_ascii_of_string s.

Definition varchar (n : nat) (s : string) : Prop :=
  text s ∧ (String.length s ≤ n)%nat.

(** The membership look-up as [pool.query] runs it; [None] is the raised
    error.  A stored id is an INTEGER, so a row that matches shows both
    parameters in range: the range is tested where nothing matched. *)
Definition query_member (db : database) (channelId userId : Z)
    : option (list member_row) :=
  match select_member db channelId userId with
  | [] => if bool_decide (int4 channelId ∧ int4 userId) then Some [] else None
  | rows => Some rows
  end.

(** The channel look-up as [pool.query] runs it, in the same way. *)
Definition query_channel (db : database) (id : Z)
    : option (list channel_row) :=
  match select_channel db id with
  | [] => if bool_decide (int4 id) then Some [] else None
  | rows => Some rows
  end.

(** [INSERT INTO users (username, email, password, avatar_color)]:
    username is a VARCHAR(50), email a VARCHAR(100) and avatar_color a
    VARCHAR(7).  For values that fit, the id comes from the sequence, which
    advances whether or not the row is accepted; username and email are
    UNIQUE.  The password column holds the bcrypt hash and is not
    modelled. *)
Definition insert_user (db : database) (username email color : string)
    : database * option user_row :=
  let id := users_id_seq db in
  let row := {| u_id := id; u_username := username; u_email := email;
                u_avatar_color := color |} in
  let db1 := {| users := users db; channels := channels db;
                channel_members := channel_members db;
                messages := messages db;
                users_id_seq := id + 1;
                channels_id_seq := channels_id_seq db;
                channel_members_id_seq := channel_members_id_seq db;
                messages_id_seq := messages_id_seq db |} in
  if bool_decide (¬ (varchar 50 username ∧ varchar 100 email
                     ∧ varchar 7 color))
  then (db, None)
  else if bool_decide (select_user db id = []
                  ∧ select_user_by_email_or_username db email username = [])
  then ({| users := users db ++ [row]; channels := channels db;
           channel_members := channel_members db;
           messages := messages db;
           users_id_seq := id + 1;
           channels_id_seq := channels_id_seq db;
           channel_members_id_seq := channel_members_id_seq db;
           messages_id_seq := messages_id_seq db |}, Some row)
  else (db1, None).

(** [INSERT INTO channels (name, description, creator_id)]: name is a
    VARCHAR(100), description a TEXT, and creator_id REFERENCES
    users(id). *)
Definition insert_channel (db : database) (name description : string)
    (creatorId : Z) : database * option channel_row :=
  let id := channels_id_seq db in
  let row := {| c_id := id; c_name := name; c_description := description;
                creator_id := creatorId |} in
  if bool_decide (¬ (varchar 100 name ∧ text description))
  then (db, None)
  else if bool_decide (select_channel db id = []
                       ∧ select_user db creatorId ≠ [])
  then ({| users := users db; channels := channels db ++ [row];
           channel_members := channel_members db;
           messages := messages db;
           users_id_seq := users_id_seq db;
           channels_id_seq := id + 1;
           channel_members_id_seq := channel_members_id_seq db;
           messages_id_seq := messages_id_seq db |}, Some row)
  else ({| users := users db; channels := channels db;
           channel_members := channel_members db;
           messages := messages db;
           users_id_seq := users_id_seq db;
           channels_id_seq := id + 1;
           channel_members_id_seq := channel_members_id_seq db;
           messages_id_seq := messages_id_seq db |}, None).

(** [INSERT INTO channel_members (channel_id, user_id)]: both columns are
    foreign keys and the pair is UNIQUE. *)
Definition insert_member (db : database) (channelId userId now : Z)
    : database * option member_row :=
  let id := channel_members_id_seq db in
  let row := {| cm_id := id; cm_channel_id := channelId;
                cm_user_id := userId; cm_joined_at := now |} in
  if bool_decide (filter (λ r, cm_id r = id) (channel_members db) = []
                  ∧ select_channel db channelId ≠ []
                  ∧ select_user db userId ≠ []
                  ∧ select_member db channelId userId = [])
  then ({| users := users db; channels := channels db;
           channel_members := channel_members db ++ [row];
           messages := messages db;
           users_id_seq := users_id_seq db;
           channels_id_seq := channels_id_seq db;
           channel_members_id_seq := id + 1;
           messages_id_seq := messages_id_seq db |}, Some row)
  else ({| users := users db; channels := channels db;
           channel_members := channel_members db;
           messages := messages db;
           users_id_seq := users_id_seq db;
           channels_id_seq := channels_id_seq db;
           channel_members_id_seq := id + 1;
           messages_id_seq := messages_id_seq db |}, None).

(** [DELETE FROM channel_members WHERE channel_id = $1 AND user_id = $2] *)
Definition delete_member (db : database) (channelId userId : Z)
    : database :=
  {| users := users db; channels := channels db;
     channel_members :=
       filter (λ r, ¬ (cm_channel_id r = channelId ∧ cm_user_id r = userId))
              (channel_members db);
     messages := messages db;
     users_id_seq := users_id_seq db;
     channels_id_seq := channels_id_seq db;
     channel_members_id_seq := channel_members_id_seq db;
     messages_id_seq := messages_id_seq db |}.

(** The DELETE as [pool.query] runs it; [None] is the raised error. *)
Definition exec_delete_member (db : database) (channelId userId : Z)
    : option database :=
  if bool_decide (int4 channelId ∧ int4 userId)
  then Some (delete_member db channelId userId)
  else None.

(** [INSERT INTO messages (channel_id, user_id, content) RETURNING *];
    the content is a TEXT, which cannot hold the code unit 0. *)
Definition insert_message (db : database) (channelId userId : Z)
    (content : js_string) (now : Z) : database * option message_row :=
  let id := messages_id_seq db in
  let row := {| m_id := id; m_channel_id := channelId; m_user_id := userId;
                m_content := content; m_created_at := now |} in
  if bool_decide (0%N ∈ content)
  then (db, None)
  else if bool_decide (filter (λ m, m_id m = id) (messages db) = []
                  ∧ select_channel db channelId ≠ []
                  ∧ select_user db userId ≠ [])
  then ({| users := users db; channels := channels db;
           channel_members := channel_members db;
           messages := messages db ++ [row];
           users_id_seq := users_id_seq db;
           channels_id_seq := channels_id_seq db;
           channel_members_id_seq := channel_members_id_seq db;
           messages_id_seq := id + 1 |}, Some row)
  else ({| users := users db; channels := channels db;
           channel_members := channel_members db;
           messages := messages db;
           users_id_seq := users_id_seq db;
           channels_id_seq := channels_id_seq db;
           channel_members_id_seq := channel_members_id_seq db;
           messages_id_seq := id + 1 |}, None).

(** ROLLBACK restores the tables; sequences are not transactional. *)
Definition rollback (before after : database) : database :=
  {| users := users before; channels := channels before;
     channel_members := channel_members before;
     messages := messages before;
     users_id_seq := users_id_seq after;
     channels_id_seq := channels_id_seq after;
     channel_members_id_seq := channel_members_id_seq after;
     messages_id_seq := messages_id_seq after |}.

End Sql.

(** ** HTTP layer *)

(** The JSON bodies the controllers answer with. *)
Record message_data := {
  md_message : message_row;
  md_username : string;
  md_avatar_color : string }.

Inductive body :=
| json_error (error : string)
| json_message (message : string)
| json_user (message : string) (user : user_row)
| json_channel (message : string) (channel : channel_row)
| json_messages (messages : list message_data).

Record response := { status : Z; json : body }.

(** [parseInt(x) || d]: a query parameter is given by what [parseInt]
    makes of it, [None] being NaN (parameter absent or not numeric); NaN
    and 0 are falsy. *)
Definition or_default (x : option Z) (d : Z) : Z :=
  match x with
  | None => d
  | Some 0 => d
  | Some n => n
  end.

(** authController.js, [register], from line 25 on: the request has
    passed the validators of the route, so [validationResult] is empty and
    the 400 answer of lines 19-23, which comes before any query, is not
    taken.  Password hashing and the token are left out; [avatarColor] is
    the colour [generateAvatarColor] drew.  The first query raises on a
    name or an address that is no text. *)
Definition register (db : database) (username email avatarColor : string)
    : database * response :=
  let failed db' :=
    (db', {| status := 500;
             json := json_error "Server error during registration" |}) in
  if bool_decide (¬ (Sql.text email ∧ Sql.text username))
  then failed db
  else
    let existingUser :=
      Sql.select_user_by_email_or_username db email username in
    if bool_decide (0 < length existingUser)%nat
    then (db, {| status := 400; json := json_error "User already exists" |})
    else
      match Sql.insert_user db username email avatarColor with
      | (db1, Some user) =>
          (db1, {| status := 201;
                   json := json_user "User registered successfully" user |})
      | (db1, None) => failed db1
      end.

(** channelsController.js, [createChannel]: the two inserts run in one
    transaction. *)
Definition createChannel (db : database) (creatorId : Z)
    (name description : string) (now : Z) : database * response :=
  let failed db' :=
    (Sql.rollback db db',
     {| status := 500; json := json_error "Server error creating channel" |}) in
  match Sql.insert_channel db name description creatorId with
  | (db1, Some channel) =>
      match Sql.insert_member db1 (c_id channel) creatorId now with
      | (db2, Some _) =>
          (db2, {| status := 201;
                   json := json_channel "Channel created successfully" channel |})
      | (db2, None) => failed db2
      end
  | (db1, None) => failed db1
  end.

(** channelsController.js, [joinChannel] *)
Definition joinChannel (db : database) (userId channelId now : Z)
    : database * response :=
  let failed db' :=
    (db', {| status := 500;
             json := json_error "Server error joining channel" |}) in
  match Sql.query_member db channelId userId with
  | None => failed db
  | Some existingMember =>
      if bool_decide (0 < length existingMember)%nat
      then (db, {| status := 400;
                   json := json_error "Already a member of this channel" |})
      else
        match Sql.insert_member db channelId userId now with
        | (db1, Some _) =>
            (db1, {| status := 200;
                     json := json_message "Successfully joined channel" |})
        | (db1, None) => failed db1
        end
  end.

(** channelsController.js, [removeUserFromChannel]; [requesterId] is
    [req.user.id], [channelId] and [userId] are the integers the route
    parameters spell: the one [userId] stands for [parseInt(userId)] in the
    guard and for the parameter of the DELETE. *)
Definition removeUserFromChannel (db : database)
    (requesterId channelId userId : Z) : database * response :=
  let failed :=
    (db, {| status := 500; json := json_error "Server error removing user" |}) in
  match Sql.query_channel db channelId with
  | None => failed
  | Some [] =>
      (db, {| status := 404; json := json_error "Channel not found" |})
  | Some (row :: _) =>
      if bool_decide (creator_id row ≠ requesterId)
      then (db, {| status := 403;
                   json := json_error "Only channel creator can remove members" |})
      else if bool_decide (userId = requesterId)
      then (db, {| status := 400;
                   json := json_error "Creator cannot be removed from channel" |})
      else
        match Sql.exec_delete_member db channelId userId with
        | None => failed
        | Some db1 =>
            (db1,
             {| status := 200;
                json := json_message "User removed from channel successfully" |})
        end
  end.

(** [ORDER BY m.created_at DESC] *)
Definition created_at_desc (a b : message_data) : Prop :=
  m_created_at (md_message b) ≤ m_created_at (md_message a).

Global Instance created_at_desc_dec : RelDecision created_at_desc.
Proof. intros a b. unfold created_at_desc. apply _. Defined.

(** The FROM, JOIN and WHERE of the query of [getChannelMessages]:
    messages joined with their authors, restricted to the channel. *)
Definition channel_messages (db : database) (channelId : Z)
    : list message_data :=
  let joined :=
    m ← messages db;
    u ← Sql.select_user db (m_user_id m);
    [ {| md_message := m; md_username := u_username u;
         md_avatar_color := u_avatar_color u |} ] in
  filter (λ d, m_channel_id (md_message d) = channelId) joined.

(** PostgreSQL refuses a negative LIMIT or OFFSET, one outside BIGINT, and
    a channel id outside INTEGER. *)
Definition history_query_raises (db : database) (channelId limit offset : Z)
    : Prop :=
  limit < 0 ∨ offset < 0 ∨ ¬ Sql.int8 limit ∨ ¬ Sql.int8 offset
  ∨ (channel_messages db channelId = [] ∧ ¬ Sql.int4 channelId).

Global Instance history_query_raises_dec db channelId limit offset :
  Decision (history_query_raises db channelId limit offset).
Proof. unfold history_query_raises, Sql.int8, Sql.int4. apply _. Defined.

(** The query of [getChannelMessages]: the selected rows, newest first,
    then LIMIT and OFFSET.  Rows with the same [created_at] come in the
    order the merge sort gives them here; PostgreSQL leaves their order
    open, and [query_channel_messages] below has every order it may
    choose. *)
Definition select_channel_messages (db : database) (channelId limit offset : Z)
    : option (list message_data) :=
  let ordered := merge_sort created_at_desc (channel_messages db channelId) in
  if bool_decide (history_query_raises db channelId limit offset)
  then None
  else Some (take (Z.to_nat limit) (drop (Z.to_nat offset) ordered)).

(** The same query as a relation: [ORDER BY m.created_at DESC] asks for
    the selected rows in some order in which no row comes before a newer
    one; [result] is what LIMIT and OFFSET cut out of such an order. *)
Definition query_channel_messages (db : database) (channelId limit offset : Z)
    (result : list message_data) : Prop :=
  ¬ history_query_raises db channelId limit offset
  ∧ ∃ ordered,
      ordered ≡ₚ channel_messages db channelId
      ∧ Sorted created_at_desc ordered
      ∧ result = take (Z.to_nat limit) (drop (Z.to_nat offset) ordered).

(** channelsController.js, [getChannelMessages]; [requesterId] is
    [req.user.id], which [authenticateToken] set and the handler never
    reads. *)
Definition getChannelMessages (db : database) (requesterId channelId : Z)
    (query_limit query_offset : option Z) : response :=
  let limit := or_default query_limit 50 in
  let offset := or_default query_offset 0 in
  match select_channel_messages db channelId limit offset with
  | Some rows => {| status := 200; json := json_messages (reverse rows) |}
  | None => {| status := 500; json := json_error "Server error fetching messages" |}
  end.

(** ** Real-time layer (socket/sockerHandler.js) *)

(** What the authentication middleware binds to a socket. *)
Record socket := { userId : Z; username : string }.

(** The server: the connection pool's database, the connected sockets by
    id, and the adapter's rooms. *)
Record state := {
  pool : database;
  sockets : gmap nat socket;
  rooms : gmap Z (gset nat) }.

Definition initial_state : state :=
  {| pool := empty_database; sockets := ∅; rooms := ∅ |}.

(** Server-to-client events. *)
Inductive event :=
| ev_error (message : string)
| force_leave_channel (channelId : Z)
| user_joined (userId : Z) (username : string) (channelId : Z)
| user_left (userId : Z) (username : string) (channelId : Z)
| room_info (channelId : Z) (onlineCount : nat)
| new_message (messageData : message_data)
| user_typing (userId : Z) (username : string) (channelId : Z) (isTyping : bool)
| user_kicked (channelId userId : Z)
| member_removed_notification (channelId userId : Z).

(** One [emit] call: the sockets it is delivered to and the event. *)
Record emission := { recipients : gset nat; payload : event }.

(** The subscribers of a channel's room; a room that is not in the map has
    none. *)
Definition room (st : state) (channelId : Z) : gset nat :=
  default ∅ (rooms st !! channelId).

Definition with_pool (st : state) (db : database) : state :=
  {| pool := db; sockets := sockets st; rooms := rooms st |}.

Definition with_rooms (st : state) (rs : gmap Z (gset nat)) : state :=
  {| pool := pool st; sockets := sockets st; rooms := rs |}.

Module Io.

(** [socket.emit(ev, data)] *)
Definition socket_emit (sid : nat) (ev : event) : emission :=
  {| recipients := {[sid]}; payload := ev |}.

(** [io.to(room).emit(ev, data)] *)
Definition io_to (st : state) (channelId : Z) (ev : event) : emission :=
  {| recipients := room st channelId; payload := ev |}.

(** [socket.to(room).emit(ev, data)]: the room without the socket
    itself. *)
Definition socket_to (st : state) (sid : nat) (channelId : Z) (ev : event)
    : emission :=
  {| recipients := room st channelId ∖ {[sid]}; payload := ev |}.

(** [socket.join(room)]: the adapter creates the room when needed. *)
Definition join (sid : nat) (channelId : Z) (rs : gmap Z (gset nat))
    : gmap Z (gset nat) :=
  <[channelId := {[sid]} ∪ default ∅ (rs !! channelId)]> rs.

(** What is left of a room once [sid] is out of it; the adapter drops a
    room that became empty. *)
Definition without (sid : nat) (r : gset nat) : option (gset nat) :=
  let r' := r ∖ {[sid]} in
  if decide (r' = ∅) then None else Some r'.

(** [socket.leave(room)] *)
Definition leave (sid : nat) (channelId : Z) (rs : gmap Z (gset nat))
    : gmap Z (gset nat) :=
  match rs !! channelId with
  | None => rs
  | Some r =>
      match without sid r with
      | None => delete channelId rs
      | Some r' => <[channelId := r']> rs
      end
  end.

(** Leaving every room, as socket.io does for a socket that
    disconnects. *)
Definition leaveAll (sid : nat) (rs : gmap Z (gset nat))
    : gmap Z (gset nat) :=
  omap (without sid) rs.

(** [io.in(room).fetchSockets()]: the connected sockets of the room. *)
Definition fetchSockets (st : state) (channelId : Z) : list (nat * socket) :=
  omap (λ sid, (λ s, (sid, s)) <$> sockets st !! sid)
       (elements (room st channelId)).

End Io.

(** The handshake's [auth.token] as [jwt.verify] sees it. *)
Inductive handshake :=
| no_token
| invalid_token
| valid_token (id : Z) (username : string).

(** The authentication middleware: a refused connection is never
    registered. *)
Definition authenticate (h : handshake) : string + socket :=
  match h with
  | no_token => inl "Authentication required"
  | invalid_token => inl "Invalid token"
  | valid_token id name => inr {| userId := id; username := name |}
  end.

Definition connection (st : state) (sid : nat) (h : handshake) : state :=
  match authenticate h with
  | inl _ => st
  | inr s => {| pool := pool st; sockets := <[sid := s]> (sockets st);
                rooms := rooms st |}
  end.

Definition disconnect (st : state) (sid : nat) : state :=
  {| pool := pool st; sockets := delete sid (sockets st);
     rooms := Io.leaveAll sid (rooms st) |}.

(** [socket.on('join_channel', ...)]; the branch of a query that raised
    is the handler's [catch]. *)
Definition join_channel (st : state) (sid : nat) (s : socket) (channelId : Z)
    : state * list emission :=
  match Sql.query_member (pool st) channelId (userId s) with
  | None => (st, [ Io.socket_emit sid (ev_error "Error joining channel") ])
  | Some memberCheck =>
      if bool_decide (length memberCheck = 0%nat)
      then (st, [ Io.socket_emit sid
                    (ev_error "Not a member of this channel");
                  Io.socket_emit sid (force_leave_channel channelId) ])
      else
        let st1 := with_rooms st (Io.join sid channelId (rooms st)) in
        let joined :=
          Io.socket_to st1 sid channelId
            (user_joined (userId s) (username s) channelId) in
        let roomSize := from_option size 0%nat (rooms st1 !! channelId) in
        (st1, [ joined;
                Io.io_to st1 channelId (room_info channelId roomSize) ])
  end.

(** [socket.on('leave_channel', ...)] *)
Definition leave_channel (st : state) (sid : nat) (s : socket) (channelId : Z)
    : state * list emission :=
  let st1 := with_rooms st (Io.leave sid channelId (rooms st)) in
  (st1, [ Io.socket_to st1 sid channelId
            (user_left (userId s) (username s) channelId) ]).

(** [socket.on('send_message', ...)]; [now] is the CURRENT_TIMESTAMP of
    the insert, and [failed] is the handler's [catch], which a raising
    membership query reaches as well as a raising insert. *)
Definition send_message (st : state) (sid : nat) (s : socket) (channelId : Z)
    (content : js_string) (now : Z) : state * list emission :=
  let failed st' :=
    (st', [ Io.socket_emit sid (ev_error "Error sending message") ]) in
  match Sql.query_member (pool st) channelId (userId s) with
  | None => failed st
  | Some memberCheck =>
      if bool_decide (length memberCheck = 0%nat)
      then (st, [ Io.socket_emit sid
                    (ev_error "You are not a member of this channel");
                  Io.socket_emit sid (force_leave_channel channelId) ])
      else
        match Sql.insert_message (pool st) channelId (userId s) content now
        with
        | (db1, None) => failed (with_pool st db1)
        | (db1, Some message) =>
            let st1 := with_pool st db1 in
            match Sql.select_user db1 (userId s) with
            | [] => failed st1
            | u :: _ =>
                let messageData :=
                  {| md_message := message; md_username := u_username u;
                     md_avatar_color := u_avatar_color u |} in
                (st1, [ Io.io_to st1 channelId (new_message messageData) ])
            end
        end
  end.

(** [socket.on('typing', ...)]; its [catch] only logs. *)
Definition typing (st : state) (sid : nat) (s : socket) (channelId : Z)
    (isTyping : bool) : state * list emission :=
  match Sql.query_member (pool st) channelId (userId s) with
  | None => (st, [])
  | Some memberCheck =>
      if bool_decide (length memberCheck = 0%nat)
      then (st, [])
      else (st, [ Io.socket_to st sid channelId
                    (user_typing (userId s) (username s) channelId
                       isTyping) ])
  end.

(** The loop of the kick handler over the fetched sockets. *)
Fixpoint kick_loop (channelId kickedUserId : Z) (fetched : list (nat * socket))
    (st : state) : state * list emission :=
  match fetched with
  | [] => (st, [])
  | (sid, s) :: rest =>
      if bool_decide (userId s = kickedUserId)
      then
        let st1 := with_rooms st (Io.leave sid channelId (rooms st)) in
        let '(st2, out) := kick_loop channelId kickedUserId rest st1 in
        (st2, Io.socket_emit sid (force_leave_channel channelId) :: out)
      else kick_loop channelId kickedUserId rest st
  end.

(** [socket.on('kick_user_from_channel', ...)]; the branch of a query
    that raised is the handler's [catch]. *)
Definition kick_user_from_channel (st : state) (sid : nat) (s : socket)
    (channelId kickedUserId : Z) : state * list emission :=
  match Sql.query_channel (pool st) channelId with
  | None => (st, [ Io.socket_emit sid (ev_error "Error kicking user") ])
  | Some [] => (st, [ Io.socket_emit sid (ev_error "Channel not found") ])
  | Some (row :: _) =>
      if bool_decide (creator_id row ≠ userId s)
      then (st, [ Io.socket_emit sid
                    (ev_error "Only channel creator can remove members") ])
      else
        let kicked := Io.io_to st channelId (user_kicked channelId kickedUserId) in
        let fetched := Io.fetchSockets st channelId in
        let '(st1, forced) := kick_loop channelId kickedUserId fetched st in
        (st1, kicked :: forced
                ++ [ Io.io_to st1 channelId
                       (member_removed_notification channelId kickedUserId) ])
  end.

(** ** The server as a transition system *)

Inductive request :=
| http_register (username email avatarColor : string)
| http_createChannel (creatorId : Z) (name description : string) (now : Z)
| http_joinChannel (userId channelId now : Z)
| http_removeUserFromChannel (requesterId channelId userId : Z)
| http_getChannelMessages (requesterId channelId : Z) (limit offset : option Z)
| io_connection (sid : nat) (h : handshake)
| io_disconnect (sid : nat)
| on_join_channel (sid : nat) (channelId : Z)
| on_leave_channel (sid : nat) (channelId : Z)
| on_send_message (sid : nat) (channelId : Z) (content : js_string) (now : Z)
| on_typing (sid : nat) (channelId : Z) (isTyping : bool)
| on_kick_user_from_channel (sid : nat) (channelId kickedUserId : Z).

(** A socket event runs the handler of the socket it arrives on; there is
    no handler for a socket that is not connected. *)
Definition on_socket (st : state) (sid : nat)
    (handler : socket → state * list emission) : state :=
  match sockets st !! sid with
  | Some s => (handler s).1
  | None => st
  end.

Definition step (st : state) (r : request) : state :=
  match r with
  | http_register name email color =>
      with_pool st (register (pool st) name email color).1
  | http_createChannel u name description now =>
      with_pool st (createChannel (pool st) u name description now).1
  | http_joinChannel u c now =>
      with_pool st (joinChannel (pool st) u c now).1
  | http_removeUserFromChannel u c target =>
      with_pool st (removeUserFromChannel (pool st) u c target).1
  | http_getChannelMessages _ _ _ _ => st
  | io_connection sid h => connection st sid h
  | io_disconnect sid => disconnect st sid
  | on_join_channel sid c => on_socket st sid (λ s, join_channel st sid s c)
  | on_leave_channel sid c => on_socket st sid (λ s, leave_channel st sid s c)
  | on_send_message sid c content now =>
      on_socket st sid (λ s, send_message st sid s c content now)
  | on_typing sid c b => on_socket st sid (λ s, typing st sid s c b)
  | on_kick_user_from_channel sid c target =>
      on_socket st sid (λ s, kick_user_from_channel st sid s c target)
  end.

Definition run (st : state) (rs : list request) : state := foldl step st rs.

(** The removal as the member list drives it ([handleRemoveMember]): the
    DELETE request first and, only when it succeeded, the
    [kick_user_from_channel] event on the requester's own socket. *)
Definition forced_removal (st : state) (sid : nat) (s : socket)
    (channelId targetUserId : Z) : option (state * list emission) :=
  let '(db1, res) :=
    removeUserFromChannel (pool st) (userId s) channelId targetUserId in
  if bool_decide (status res = 200)
  then Some (kick_user_from_channel (with_pool st db1) sid s
               channelId targetUserId)
  else None.

(** ** The client's message form *)

Module Client.

(** What the form and the chat room do to the outside. *)
Inductive effect :=
| emit_send_message (channelId : Z) (content : js_string)
| emit_typing (channelId : Z) (isTyping : bool)
| showNotification (message severity : string).

(** ChatRoom.jsx: the open channel, whether the user may still post, and
    whether [socketService.getSocket()] returns a socket. *)
Record ChatRoom := {
  channel : option Z;
  canSendMessages : bool;
  has_socket : bool }.

(** ChatRoom.jsx, [handleSendMessage] *)
Definition handleSendMessage (r : ChatRoom) (content : js_string)
    : list effect :=
  if negb (canSendMessages r)
  then [ showNotification "You cannot send messages in this channel" "error" ]
  else
    match has_socket r, channel r with
    | true, Some c => [ emit_send_message c content ]
    | _, _ => []
    end.

(** ChatRoom.jsx, [handleTyping] *)
Definition handleTyping (r : ChatRoom) (isTyping : bool) : list effect :=
  if negb (canSendMessages r) then []
  else
    match has_socket r, channel r with
    | true, Some c => [ emit_typing c isTyping ]
    | _, _ => []
    end.

(** MessageInput.jsx: the text being composed, the typing flag, and
    whether the typing timer is armed. *)
Record MessageInput := {
  message : js_string;
  isTyping : bool;
  typingTimeout : bool }.

(** MessageInput.jsx, [handleSubmit] *)
Definition handleSubmit (onSendMessage : js_string → list effect)
    (onTyping : bool → list effect) (disabled : bool) (f : MessageInput)
    : MessageInput * list effect :=
  if disabled || negb (Js.truthy (Js.trim (message f)))
  then (f, [])
  else ({| message := []; isTyping := false; typingTimeout := false |},
        onSendMessage (Js.trim (message f)) ++ onTyping false).

(** The form as ChatRoom.jsx mounts it. *)
Definition submit (r : ChatRoom) (f : MessageInput)
    : MessageInput * list effect :=
  handleSubmit (handleSendMessage r) (handleTyping r)
               (negb (canSendMessages r)) f.

End Client.

(** ** Observations used by the statements *)

(** The Authorization Gate: the membership look-up found a row. *)
Definition isMember (db : database) (channelId userId : Z) : bool :=
  bool_decide (Sql.select_member db channelId userId ≠ []).

Definition is_new_message (ev : event) : bool :=
  match ev with new_message _ => true | _ => false end.

Definition is_error (ev : event) : bool :=
  match ev with ev_error _ => true | _ => false end.

(** At most one membership row for every (channel, user). *)
Definition membership_unique (db : database) : Prop :=
  ∀ channelId userId,
    (length (Sql.select_member db channelId userId) ≤ 1)%nat.

(** Every channel's creator is a member of it. *)
Definition creator_is_member (db : database) : Prop :=
  ∀ c, c ∈ channels db → isMember db (c_id c) (creator_id c) = true.

(** The PRIMARY KEY of [channels]. *)
Definition channels_primary_key (db : database) : Prop :=
  ∀ id, (length (Sql.select_channel db id) ≤ 1)%nat.


(** The sockets of the fetched list that belong to the kicked user. *)
Definition kicked_sockets (t : Z) (fetched : list (nat * socket)) : list nat :=
  (filter (λ p, userId p.2 = t) fetched).*1.

(** How one request may change [channels] and [channel_members]. *)
Inductive tables_step (db db' : database) : Prop :=
| tables_same :
    channels db' = channels db →
    channel_members db' = channel_members db →
    tables_step db db'
| tables_created row mrow :
    channels db' = channels db ++ [row] →
    channel_members db' = channel_members db ++ [mrow] →
    cm_channel_id mrow = c_id row → cm_user_id mrow = creator_id row →
    Sql.select_channel db (c_id row) = [] →
    Sql.select_member db (c_id row) (creator_id row) = [] →
    tables_step db db'
| tables_joined mrow :
    channels db' = channels db →
    channel_members db' = channel_members db ++ [mrow] →
    Sql.select_member db (cm_channel_id mrow) (cm_user_id mrow) = [] →
    tables_step db db'
| tables_removed channelId userId row rest :
    db' = Sql.delete_member db channelId userId →
    Sql.select_channel db channelId = row :: rest →
    creator_id row ≠ userId →
    tables_step db db'.

(** ** A running example *)

Module Scenario.

Definition alice : socket := {| userId := 1; username := "alice" |}.
Definition bob : socket := {| userId := 2; username := "bob" |}.
Definition carol : socket := {| userId := 3; username := "carol" |}.

(** "hi" *)
Definition hi : js_string := [104; 105]%N.

(** Two spaces. *)
Definition blank : js_string := [32; 32]%N.

(** Alice creates channel 1 and Bob joins it; Alice is connected once
    (socket 10), Bob twice (20 and 21), Carol once (30).  Carol is not a
    member, so her [join_channel] is refused. *)
Definition setup : list request :=
  [ http_register "alice" "alice@example.org" "#1976d2";
    http_register "bob" "bob@example.org" "#388e3c";
    http_register "carol" "carol@example.org" "#d32f2f";
    http_createChannel 1 "general" "" 100;
    http_joinChannel 2 1 101;
    io_connection 10%nat (valid_token 1 "alice");
    io_connection 20%nat (valid_token 2 "bob");
    io_connection 21%nat (valid_token 2 "bob");
    io_connection 30%nat (valid_token 3 "carol");
    on_join_channel 10%nat 1;
    on_join_channel 20%nat 1;
    on_join_channel 21%nat 1;
    on_join_channel 30%nat 1 ].

Definition chatting : state := run initial_state setup.

(** Bob posts, then Alice removes him over HTTP. *)
Definition bob_removed : list request :=
  [ on_send_message 20%nat 1 hi 200;
    http_removeUserFromChannel 1 1 2 ].

(** Alice and Bob each post once. *)
Definition talk : list request :=
  [ on_send_message 10%nat 1 hi 200;
    on_send_message 20%nat 1 blank 201 ].

End Scenario.

(** ** Further controllers *)

(** A row of the member list: [u.id], [u.username], [u.avatar_color],
    [cm.joined_at] and [c.creator_id = u.id as is_creator]. *)
Record member_info := {
  mi_id : Z;
  mi_username : string;
  mi_avatar_color : string;
  mi_joined_at : Z;
  mi_is_creator : bool }.

(** [ORDER BY is_creator DESC, cm.joined_at ASC] *)
Definition members_order (a b : member_info) : Prop :=
  (mi_is_creator b = true → mi_is_creator a = true)
  ∧ (mi_is_creator a = mi_is_creator b → mi_joined_at a ≤ mi_joined_at b).

Global Instance members_order_dec : RelDecision members_order.
Proof. intros a b. unfold members_order. apply _. Defined.

(** The query of [getChannelMembers]: users joined with their membership
    rows and these with their channels, restricted to the channel. *)
Definition select_channel_members (db : database) (channelId : Z)
    : list member_info :=
  let joined :=
    u ← users db;
    cm ← filter (λ r, cm_user_id r = u_id u) (channel_members db);
    c ← filter (λ c, c_id c = cm_channel_id cm) (channels db);
    [ (u, cm, c) ] in
  let selected := filter (λ t, cm_channel_id t.1.2 = channelId) joined in
  let rows :=
    (λ t, {| mi_id := u_id t.1.1; mi_username := u_username t.1.1;
             mi_avatar_color := u_avatar_color t.1.1;
             mi_joined_at := cm_joined_at t.1.2;
             mi_is_creator := bool_decide (creator_id t.2 = u_id t.1.1) |})
      <$> selected in
  merge_sort members_order rows.

(** channelsController.js, [getChannelMembers]: the [members] of its
    answer, none when the query raises and the answer is 500;
    [requesterId] is [req.user.id], which the handler never reads. *)
Definition getChannelMembers (db : database) (requesterId channelId : Z)
    : list member_info :=
  select_channel_members db channelId.

(** The answers of [getProfile]. *)
Inductive profile_response :=
| profile_user (user : user_row)
| profile_error (status : Z) (error : string).

(** authController.js, [getProfile] *)
Definition getProfile (db : database) (requesterId : Z) : profile_response :=
  match Sql.select_user db requesterId with
  | [] => profile_error 404 "User not found"
  | user :: _ => profile_user user
  end.

(** ** The chat room's view of the socket events (ChatRoom.jsx) *)

Module View.

(** [handleNewMessage]: the update it passes to [setMessages]. *)
Definition handleNewMessage (prev : list message_data) (message : message_data)
    : list message_data :=
  if bool_decide (Exists (λ m, m_id (md_message m) = m_id (md_message message))
                         prev)
  then prev
  else prev ++ [message].

(** [handleUserTyping]: the update it passes to [setTypingUsers]; [user]
    is the logged-in user's name, if any. *)
Definition handleUserTyping (user : option string) (prev : list string)
    (username : string) (isTyping : bool) : list string :=
  if bool_decide (user = Some username) then prev
  else if isTyping
  then (if bool_decide (username ∈ prev) then prev else prev ++ [username])
  else filter (λ u, u ≠ username) prev.

End View.

(** ** The message form's typing signal (MessageInput.jsx) *)

Module Form.

(** [handleChange] *)
Definition handleChange (onTyping : bool → list Client.effect)
    (disabled : bool) (f : Client.MessageInput) (value : js_string)
    : Client.MessageInput * list Client.effect :=
  if disabled then (f, [])
  else
    let start := negb (Client.isTyping f) && Js.truthy (Js.trim value) in
    ({| Client.message := value;
        Client.isTyping := Client.isTyping f || start;
        Client.typingTimeout := true |},
     if start then onTyping true else []).

(** The callback of the typing timer, run when an armed timer expires. *)
Definition timeout (onTyping : bool → list Client.effect)
    (f : Client.MessageInput) : Client.MessageInput * list Client.effect :=
  if Client.typingTimeout f
  then ({| Client.message := Client.message f; Client.isTyping := false;
           Client.typingTimeout := false |}, onTyping false)
  else (f, []).

(** What can happen to a mounted form. *)
Inductive event :=
| change (value : js_string)
| expire
| submit.

(** The form mounted in a chat room whose props stay [r]. *)
Definition step (r : Client.ChatRoom) (f : Client.MessageInput) (e : event)
    : Client.MessageInput * list Client.effect :=
  match e with
  | change value =>
      handleChange (Client.handleTyping r) (negb (Client.canSendMessages r))
                   f value
  | expire => timeout (Client.handleTyping r) f
  | submit => Client.submit r f
  end.

Fixpoint run (r : Client.ChatRoom) (f : Client.MessageInput)
    (es : list event) : Client.MessageInput * list Client.effect :=
  match es with
  | [] => (f, [])
  | e :: es' =>
      let '(f1, out1) := step r f e in
      let '(f2, out2) := run r f1 es' in
      (f2, out1 ++ out2)
  end.

(** The typing flags among the effects, in order. *)
Definition typing_signals (out : list Client.effect) : list bool :=
  omap (λ e, match e with
             | Client.emit_typing _ b => Some b
             | _ => None
             end) out.

(** No start signal directly after a start signal; [started] tells whether
    the signal before the list was a start. *)
Fixpoint starts_separated (started : bool) (signals : list bool) : bool :=
  match signals with
  | [] => true
  | b :: rest => negb (started && b) && starts_separated b rest
  end.

Definition initial : Client.MessageInput :=
  {| Client.message := []; Client.isTyping := false;
     Client.typingTimeout := false |}.

End Form.

(** ** Further observations *)


(** The REFERENCES clauses of initDatabase.js. *)
Definition references_kept (db : database) : Prop :=
  (∀ c, c ∈ channels db → Sql.select_user db (creator_id c) ≠ [])
  ∧ (∀ r, r ∈ channel_members db →
          Sql.select_channel db (cm_channel_id r) ≠ []
          ∧ Sql.select_user db (cm_user_id r) ≠ [])
  ∧ (∀ m, m ∈ messages db →
          Sql.select_channel db (m_channel_id m) ≠ []
          ∧ Sql.select_user db (m_user_id m) ≠ []).

(** No two accounts share an id, a username or an email. *)
Definition accounts_unique (db : database) : Prop :=
  NoDup (u_id <$> users db)
  ∧ NoDup (u_username <$> users db)
  ∧ NoDup (u_email <$> users db).

(** The messages of a successful history answer. *)
Definition history (res : response) : list message_data :=
  match json res with
  | json_messages rows => rows
  | _ => []
  end.

(** The message lists a 200 answer of [getChannelMessages] may carry,
    whichever order the query chose among rows of equal [created_at]:
    the handler reverses what the query returned. *)
Definition history_answers (db : database) (channelId : Z)
    (query_limit query_offset : option Z) (rows : list message_data) : Prop :=
  ∃ result,
    query_channel_messages db channelId (or_default query_limit 50)
      (or_default query_offset 0) result
    ∧ rows = reverse result.

(** No two messages of the channel were stored at the same instant. *)
Definition distinct_created_at (db : database) (channelId : Z) : Prop :=
  NoDup ((λ d, m_created_at (md_message d)) <$> channel_messages db channelId).

(** * Properties *)

(** ** Lemmas on the membership table *)

Section membership_table.
Implicit Types (db : database) (channelId userId : Z).

Lemma isMember_false db channelId userId :
  isMember db channelId userId = false ↔
  length (Sql.select_member db channelId userId) = 0%nat.
Proof.
  unfold isMember. rewrite bool_decide_eq_false.
  destruct (Sql.select_member db channelId userId) as [|r l]; simpl.
  - split; [done | intros _ H; by apply H].
  - split; [intros H; by destruct H | done].
Qed.

Lemma isMember_true db channelId userId :
  isMember db channelId userId = true ↔
  (0 < length (Sql.select_member db channelId userId))%nat.
Proof.
  unfold isMember. rewrite bool_decide_eq_true.
  destruct (Sql.select_member db channelId userId) as [|r l]; simpl.
  - split; [done | lia].
  - split; [lia | done].
Qed.

Lemma isMember_elem db channelId userId :
  isMember db channelId userId = true ↔
  ∃ r, r ∈ channel_members db
       ∧ cm_channel_id r = channelId ∧ cm_user_id r = userId.
Proof.
  unfold isMember, Sql.select_member. rewrite bool_decide_eq_true. split.
  - intros H.
    destruct (filter _ (channel_members db)) as [|r l] eqn:E; [done|].
    assert (r ∈ filter (λ r, cm_channel_id r = channelId
                              ∧ cm_user_id r = userId)
                       (channel_members db)) as Hr
      by (rewrite E; left).
    apply list_elem_of_filter in Hr. exists r. tauto.
  - intros (r & Hin & Hc & Hu) E.
    assert (r ∈ filter (λ r, cm_channel_id r = channelId
                              ∧ cm_user_id r = userId)
                       (channel_members db)) as Hr
      by (apply list_elem_of_filter; auto).
    rewrite E in Hr. by apply not_elem_of_nil in Hr.
Qed.

(** The look-ups as the pool runs them: the rows of the SELECT, or an
    error when nothing matched and a parameter is out of range. *)
Lemma query_member_spec db channelId userId :
  Sql.query_member db channelId userId
  = if bool_decide (Sql.select_member db channelId userId = []
                    ∧ ¬ (Sql.int4 channelId ∧ Sql.int4 userId))
    then None
    else Some (Sql.select_member db channelId userId).
Proof.
  unfold Sql.query_member.
  destruct (Sql.select_member db channelId userId) as [|r l].
  - case_bool_decide as H1; case_bool_decide as H2; try done.
    + by destruct H2 as [_ H2].
    + destruct H2. by split.
  - by rewrite bool_decide_eq_false_2 by (by intros [? _]).
Qed.

Lemma query_channel_spec db id :
  Sql.query_channel db id
  = if bool_decide (Sql.select_channel db id = [] ∧ ¬ Sql.int4 id)
    then None
    else Some (Sql.select_channel db id).
Proof.
  unfold Sql.query_channel.
  destruct (Sql.select_channel db id) as [|r l].
  - case_bool_decide as H1; case_bool_decide as H2; try done.
    + by destruct H2 as [_ H2].
    + destruct H2. by split.
  - by rewrite bool_decide_eq_false_2 by (by intros [? _]).
Qed.

(** A look-up that finds a row does not raise. *)
Lemma query_member_found db channelId userId :
  isMember db channelId userId = true →
  Sql.query_member db channelId userId
  = Some (Sql.select_member db channelId userId).
Proof.
  intros H. apply isMember_true in H. rewrite query_member_spec.
  rewrite bool_decide_eq_false_2; [done|].
  intros [E _]. rewrite E in H. simpl in H. lia.
Qed.

Lemma query_member_absent db channelId userId :
  isMember db channelId userId = false →
  Sql.int4 channelId → Sql.int4 userId →
  Sql.query_member db channelId userId = Some [].
Proof.
  intros H Hc Hu. apply isMember_false in H. rewrite query_member_spec.
  rewrite bool_decide_eq_false_2 by (intros [_ Hn]; apply Hn; by split).
  by destruct (Sql.select_member db channelId userId).
Qed.

Lemma query_channel_found db id row rest :
  Sql.select_channel db id = row :: rest →
  Sql.query_channel db id = Some (row :: rest).
Proof. unfold Sql.query_channel. by intros ->. Qed.

(** Both observations read the membership table only. *)
Lemma select_member_ext db db' channelId userId :
  channel_members db' = channel_members db →
  Sql.select_member db' channelId userId
  = Sql.select_member db channelId userId.
Proof. unfold Sql.select_member. by intros ->. Qed.


Lemma membership_unique_ext db db' :
  channel_members db' = channel_members db →
  membership_unique db → membership_unique db'.
Proof.
  intros H Hu c u. rewrite (select_member_ext _ _ _ _ H). apply Hu.
Qed.

(** What an INSERT into [channel_members] does to the table. *)
Lemma insert_member_members db channelId userId now db1 o :
  Sql.insert_member db channelId userId now = (db1, o) →
  users db1 = users db ∧ channels db1 = channels db
  ∧ messages db1 = messages db
  ∧ match o with
    | None => channel_members db1 = channel_members db
    | Some row =>
        channel_members db1 = channel_members db ++ [row]
        ∧ cm_channel_id row = channelId ∧ cm_user_id row = userId
        ∧ Sql.select_member db channelId userId = []
    end.
Proof.
  unfold Sql.insert_member. case_bool_decide as Hc; intros [= <- <-]; simpl.
  - destruct Hc as (_ & _ & _ & Hc). by repeat split.
  - done.
Qed.

Lemma delete_member_select db channelId userId c u :
  Sql.select_member (Sql.delete_member db channelId userId) c u
  = if decide (c = channelId ∧ u = userId) then []
    else Sql.select_member db c u.
Proof.
  unfold Sql.select_member, Sql.delete_member; simpl.
  induction (channel_members db) as [|r l IH]; simpl.
  - by case_decide.
  - rewrite !filter_cons.
    destruct (decide (¬ (cm_channel_id r = channelId
                         ∧ cm_user_id r = userId))) as [Hne|He];
      rewrite ?filter_cons, IH;
      destruct (decide (c = channelId ∧ u = userId)) as [[Hc0 Hu0]|Hd];
      destruct (decide (cm_channel_id r = c ∧ cm_user_id r = u))
        as [[Hc Hu]|Hne']; subst; try done; tauto.
Qed.

Lemma delete_member_unique db channelId userId :
  membership_unique db →
  membership_unique (Sql.delete_member db channelId userId).
Proof.
  intros Hu c u. rewrite delete_member_select.
  case_decide; [simpl; lia | apply Hu].
Qed.

End membership_table.

(** ** What the controllers do to the tables *)

Section controllers.
Implicit Types (db : database).

Lemma register_tables db username email color :
  channels (register db username email color).1 = channels db
  ∧ channel_members (register db username email color).1
    = channel_members db.
Proof.
  unfold register, Sql.insert_user.
  repeat case_bool_decide; simpl; auto.
Qed.

Lemma insert_channel_tables db name description creatorId db1 o :
  Sql.insert_channel db name description creatorId = (db1, o) →
  users db1 = users db ∧ channel_members db1 = channel_members db
  ∧ messages db1 = messages db
  ∧ match o with
    | None => channels db1 = channels db
    | Some row =>
        channels db1 = channels db ++ [row]
        ∧ creator_id row = creatorId
        ∧ Sql.select_channel db (c_id row) = []
    end.
Proof.
  unfold Sql.insert_channel. case_bool_decide; [by intros [= <- <-]|].
  case_bool_decide as Hc; intros [= <- <-]; simpl.
  - destruct Hc as (Hc & _). by repeat split.
  - done.
Qed.

(** [createChannel] changes nothing in the tables, or adds one channel
    together with its creator's membership. *)
Lemma createChannel_tables db creatorId name description now :
  let db' := (createChannel db creatorId name description now).1 in
  (channels db' = channels db ∧ channel_members db' = channel_members db)
  ∨ ∃ row mrow,
      channels db' = channels db ++ [row]
      ∧ channel_members db' = channel_members db ++ [mrow]
      ∧ creator_id row = creatorId
      ∧ cm_channel_id mrow = c_id row ∧ cm_user_id mrow = creatorId
      ∧ Sql.select_channel db (c_id row) = []
      ∧ Sql.select_member db (c_id row) creatorId = [].
Proof.
  unfold createChannel.
  destruct (Sql.insert_channel _ _ _ _) as [db1 [row|]] eqn:E1; [|by left].
  apply insert_channel_tables in E1 as (_ & Hm1 & _ & Hc1 & Hcr & Hfresh).
  destruct (Sql.insert_member _ _ _ _) as [db2 [mrow|]] eqn:E2; [|by left].
  apply insert_member_members in E2 as (_ & Hc2 & _ & Hm2 & Hmc & Hmu & Hnone).
  right. exists row, mrow. simpl.
  rewrite Hc2, Hc1, Hm2, Hm1.
  rewrite (select_member_ext db db1) in Hnone by done.
  by repeat split.
Qed.

Lemma joinChannel_tables db userId channelId now :
  let db' := (joinChannel db userId channelId now).1 in
  channels db' = channels db
  ∧ (channel_members db' = channel_members db
     ∨ ∃ mrow, channel_members db' = channel_members db ++ [mrow]
               ∧ Sql.select_member db channelId userId = []
               ∧ cm_channel_id mrow = channelId ∧ cm_user_id mrow = userId).
Proof.
  unfold joinChannel. rewrite query_member_spec.
  case_bool_decide; [simpl; auto|].
  case_bool_decide; [simpl; auto|].
  destruct (Sql.insert_member _ _ _ _) as [db1 [mrow|]] eqn:E;
    apply insert_member_members in E as (_ & Hc & _ & Hm); simpl.
  - split; [done|]. right. exists mrow. tauto.
  - auto.
Qed.

(** [removeUserFromChannel] deletes only for the channel's creator and
    only somebody else's membership. *)
Lemma removeUserFromChannel_cases db requesterId channelId userId :
  let r := removeUserFromChannel db requesterId channelId userId in
  (r.1 = db ∧ status r.2 ≠ 200)
  ∨ (r.1 = Sql.delete_member db channelId userId ∧ status r.2 = 200
     ∧ userId ≠ requesterId
     ∧ ∃ row rest, Sql.select_channel db channelId = row :: rest
                   ∧ creator_id row = requesterId).
Proof.
  unfold removeUserFromChannel. rewrite query_channel_spec.
  case_bool_decide; [by left|].
  destruct (Sql.select_channel db channelId) as [|row rest] eqn:E;
    [by left|].
  case_bool_decide as Hcr; [by left|].
  case_bool_decide as Hself; [by left|].
  unfold Sql.exec_delete_member. case_bool_decide; [|by left].
  right. simpl. repeat split; [done|]. exists row, rest.
  split; [done|]. by destruct (decide (creator_id row = requesterId)).
Qed.

(** A removal that answered 200 had both ids in the INTEGER range. *)
Lemma removeUserFromChannel_range db requesterId channelId userId :
  status (removeUserFromChannel db requesterId channelId userId).2 = 200 →
  Sql.int4 channelId ∧ Sql.int4 userId.
Proof.
  unfold removeUserFromChannel. rewrite query_channel_spec.
  case_bool_decide; [done|].
  destruct (Sql.select_channel db channelId) as [|row rest]; [done|].
  case_bool_decide; [done|]. case_bool_decide; [done|].
  unfold Sql.exec_delete_member. by case_bool_decide.
Qed.


Lemma insert_message_tables db channelId userId content now db1 o :
  Sql.insert_message db channelId userId content now = (db1, o) →
  users db1 = users db ∧ channels db1 = channels db
  ∧ channel_members db1 = channel_members db
  ∧ match o with
    | None => messages db1 = messages db
    | Some row =>
        messages db1 = messages db ++ [row]
        ∧ m_channel_id row = channelId ∧ m_user_id row = userId
        ∧ m_content row = content ∧ m_created_at row = now
    end.
Proof.
  unfold Sql.insert_message. repeat case_bool_decide; by intros [= <- <-].
Qed.

End controllers.

(** ** Rooms *)

Section rooms.
Implicit Types (st : state) (rs : gmap Z (gset nat)) (sid : nat) (c : Z).

Lemma room_join st sid c c' :
  room (with_rooms st (Io.join sid c (rooms st))) c'
  = if decide (c' = c) then {[sid]} ∪ room st c else room st c'.
Proof.
  unfold room, Io.join; simpl. case_decide as Hc.
  - subst. by rewrite lookup_insert_eq.
  - by rewrite lookup_insert_ne.
Qed.

Lemma room_leave st sid c c' :
  room (with_rooms st (Io.leave sid c (rooms st))) c'
  = if decide (c' = c) then room st c ∖ {[sid]} else room st c'.
Proof.
  unfold room, Io.leave, Io.without; simpl.
  destruct (rooms st !! c) as [r|] eqn:E.
  - destruct (decide (r ∖ {[sid]} = ∅)) as [Hr|Hr]; case_decide as Hc; subst.
    + by rewrite lookup_delete_eq.
    + by rewrite lookup_delete_ne.
    + by rewrite lookup_insert_eq.
    + by rewrite lookup_insert_ne.
  - case_decide; subst; [|done]. rewrite E. simpl. set_solver.
Qed.

(** Leaving a room one is not in changes no room. *)
Lemma room_leave_absent st sid c c' :
  sid ∉ room st c →
  room (with_rooms st (Io.leave sid c (rooms st))) c' = room st c'.
Proof.
  intros H. rewrite room_leave. case_decide; subst; [|done]. set_solver.
Qed.

(** The size the join handler reads is the size of the room. *)
Lemma roomSize_room st c :
  from_option size 0%nat (rooms st !! c) = size (room st c).
Proof. unfold room. by destruct (rooms st !! c). Qed.

Lemma elem_of_fetchSockets st c sid s :
  (sid, s) ∈ Io.fetchSockets st c ↔
  sid ∈ room st c ∧ sockets st !! sid = Some s.
Proof.
  unfold Io.fetchSockets. rewrite list_elem_of_omap. split.
  - intros (k & Hk & Hs). apply elem_of_elements in Hk.
    destruct (sockets st !! k) as [s'|] eqn:E; simplify_eq/=. done.
  - intros [Hk Hs]. exists sid. rewrite elem_of_elements, Hs. done.
Qed.

End rooms.

(** ** The kick loop *)

Section kick.
Implicit Types (st : state) (sid : nat) (c t : Z).

Lemma kick_loop_spec c t fetched st :
  let r := kick_loop c t fetched st in
  pool r.1 = pool st ∧ sockets r.1 = sockets st
  ∧ (∀ c', room r.1 c'
           = if decide (c' = c)
             then room st c ∖ list_to_set (kicked_sockets t fetched)
             else room st c')
  ∧ r.2 = (λ sid, Io.socket_emit sid (force_leave_channel c))
          <$> kicked_sockets t fetched.
Proof.
  revert st. induction fetched as [|[sid s] rest IH]; intros st; simpl.
  - repeat split. intros c'. case_decide; [subst; set_solver | done].
  - unfold kicked_sockets. rewrite filter_cons. simpl.
    case_bool_decide as Hu.
    + rewrite decide_True by done. simpl.
      specialize (IH (with_rooms st (Io.leave sid c (rooms st)))).
      destruct (kick_loop c t rest _) as [st2 out]. simpl in *.
      destruct IH as (Hp & Hs & Hr & Ho). repeat split; try done.
      * intros c'. rewrite Hr, !room_leave.
        case_decide; [|done]. rewrite decide_True by done.
        fold (kicked_sockets t rest). set_solver.
      * by rewrite Ho.
    + rewrite decide_False by done. apply IH.
Qed.

Lemma elem_of_kicked_sockets t fetched sid :
  sid ∈ kicked_sockets t fetched ↔
  ∃ s, (sid, s) ∈ fetched ∧ userId s = t.
Proof.
  unfold kicked_sockets. rewrite list_elem_of_fmap. split.
  - intros ([k s] & -> & H). apply list_elem_of_filter in H as [Hu Hin].
    by exists s.
  - intros (s & Hin & Hu). exists (sid, s). split; [done|].
    by apply list_elem_of_filter.
Qed.

(** No branch of the kick handler writes to the database. *)
Lemma kick_user_from_channel_pool st sid s c t :
  pool (kick_user_from_channel st sid s c t).1 = pool st.
Proof.
  unfold kick_user_from_channel.
  destruct (Sql.query_channel (pool st) c) as [[|row rest]|]; [done| |done].
  case_bool_decide; [done|].
  pose proof (kick_loop_spec c t (Io.fetchSockets st c) st) as (Hp & _).
  by destruct (kick_loop c t (Io.fetchSockets st c) st).
Qed.

End kick.

(** ** The send gate *)

(** C1, as the code has it.  A [send_message] from a connection whose
    user is not a member of the channel at that moment changes nothing (no
    message row is stored) and emits no [new_message].  When the channel id
    and the user id are in the INTEGER range, the sender alone is answered
    with the error "You are not a member of this channel" followed by
    [force_leave_channel {channelId}]; when one of them is not, the
    membership query itself raises and the sender alone is answered with
    "Error sending message".  The state is the one reached after any
    history of requests: the handler looks the membership up in the
    database of that state and nowhere else. *)
Theorem send_message_not_a_member (st0 : state) (history : list request)
    (sid : nat) (s : socket) (channelId : Z) (content : js_string) (now : Z) :
  isMember (pool (run st0 history)) channelId (userId s) = false →
  (send_message (run st0 history) sid s channelId content now).1
  = run st0 history
  ∧ (send_message (run st0 history) sid s channelId content now).2
    = (if bool_decide (Sql.int4 channelId ∧ Sql.int4 (userId s))
       then [ {| recipients := {[sid]};
                 payload := ev_error "You are not a member of this channel" |};
              {| recipients := {[sid]};
                 payload := force_leave_channel channelId |} ]
       else [ {| recipients := {[sid]};
                 payload := ev_error "Error sending message" |} ])
  ∧ messages (pool (send_message (run st0 history) sid s channelId
                      content now).1)
    = messages (pool (run st0 history))
  ∧ Forall (λ e, is_new_message (payload e) = false)
           (send_message (run st0 history) sid s channelId content now).2.
Proof.
  intros H. apply isMember_false in H. unfold send_message.
  rewrite query_member_spec.
  destruct (Sql.select_member (pool (run st0 history)) channelId (userId s));
    [|done].
  case_bool_decide as Hrange.
  - rewrite bool_decide_eq_false_2 by tauto. simpl.
    repeat split. by repeat constructor.
  - rewrite bool_decide_eq_true_2 by done.
    rewrite bool_decide_eq_true_2
      by (destruct (decide (Sql.int4 channelId ∧ Sql.int4 (userId s)));
          [done | exfalso; apply Hrange; by split]).
    simpl. repeat split. by repeat constructor.
Qed.

Lemma send_message_not_a_member_witness :
  isMember (pool (run Scenario.chatting Scenario.bob_removed)) 1
           (userId Scenario.bob) = false
  ∧ (send_message (run Scenario.chatting Scenario.bob_removed) 20%nat
       Scenario.bob 1 Scenario.hi 300).2
    = [ {| recipients := {[20%nat]};
           payload := ev_error "You are not a member of this channel" |};
        {| recipients := {[20%nat]}; payload := force_leave_channel 1 |} ].
Proof.
  split; [vm_compute; reflexivity|].
  apply (send_message_not_a_member Scenario.chatting Scenario.bob_removed
           20%nat Scenario.bob 1 Scenario.hi 300).
  vm_compute; reflexivity.
Defined.

(** C1 as stated fails where the membership query raises: Bob, a member
    of channel 1 only, sends to channel 2147483648, one past the INTEGER
    range.  He is no member of it, nothing is stored, and all he gets is
    "Error sending message": no not-a-member error and no
    [force_leave_channel]. *)
Lemma send_message_out_of_range_is_generic_error :
  isMember (pool Scenario.chatting) 2147483648 (userId Scenario.bob) = false
  ∧ send_message Scenario.chatting 20%nat Scenario.bob 2147483648
      Scenario.hi 300
    = (Scenario.chatting,
       [ {| recipients := {[20%nat]};
            payload := ev_error "Error sending message" |} ])
  ∧ (send_message Scenario.chatting 20%nat Scenario.bob 2147483648
       Scenario.hi 300).2
    ≠ [ {| recipients := {[20%nat]};
           payload := ev_error "You are not a member of this channel" |};
        {| recipients := {[20%nat]};
           payload := force_leave_channel 2147483648 |} ].
Proof.
  split; [vm_compute; reflexivity|].
  assert (send_message Scenario.chatting 20%nat Scenario.bob 2147483648
            Scenario.hi 300
          = (Scenario.chatting,
             [ {| recipients := {[20%nat]};
                  payload := ev_error "Error sending message" |} ])) as E.
  { unfold send_message.
    assert (Sql.query_member (pool Scenario.chatting) 2147483648
              (userId Scenario.bob) = None) as -> by (vm_compute; reflexivity).
    reflexivity. }
  split; [exact E|]. rewrite E. simpl. intros H. discriminate H.
Qed.

(** ** Socket handlers and the membership table *)

(** C6.  [join_channel], [leave_channel], [typing] and
    [kick_user_from_channel] leave the [channel_members] table as it was,
    on every input; the real-time kick in particular deletes no membership
    row, so the kicked user is a member afterwards exactly when they were
    before. *)
Theorem socket_handlers_keep_channel_members (st : state) (sid : nat)
    (s : socket) (channelId kickedUserId : Z) (isTyping : bool) :
  channel_members (pool (join_channel st sid s channelId).1)
  = channel_members (pool st)
  ∧ channel_members (pool (leave_channel st sid s channelId).1)
    = channel_members (pool st)
  ∧ channel_members (pool (typing st sid s channelId isTyping).1)
    = channel_members (pool st)
  ∧ channel_members
      (pool (kick_user_from_channel st sid s channelId kickedUserId).1)
    = channel_members (pool st)
  ∧ isMember (pool (kick_user_from_channel st sid s channelId
                      kickedUserId).1) channelId kickedUserId
    = isMember (pool st) channelId kickedUserId.
Proof.
  rewrite kick_user_from_channel_pool.
  unfold join_channel, leave_channel, typing.
  destruct (Sql.query_member (pool st) channelId (userId s)); [|done].
  repeat case_bool_decide; done.
Qed.

(** ** Typing *)

(** C7.  [typing] checks membership first.  For a non-member it emits
    nothing at all (no error, no [force_leave_channel]).  For a member it
    makes one emission of [user_typing], whose recipients are the
    subscribers of the room other than the sending socket.  The state is
    unchanged either way. *)
Theorem typing_gate (st : state) (sid : nat) (s : socket) (channelId : Z)
    (isTyping : bool) :
  typing st sid s channelId isTyping
  = (st,
     if isMember (pool st) channelId (userId s)
     then [ {| recipients := room st channelId ∖ {[sid]};
               payload := user_typing (userId s) (username s) channelId
                            isTyping |} ]
     else [])
  ∧ Forall (λ e, sid ∉ recipients e)
           (typing st sid s channelId isTyping).2.
Proof.
  unfold typing.
  destruct (isMember (pool st) channelId (userId s)) eqn:E.
  - rewrite (query_member_found _ _ _ E).
    apply isMember_true in E. rewrite bool_decide_eq_false_2 by lia.
    split; [done|]. repeat constructor. simpl. set_solver.
  - apply isMember_false in E. rewrite query_member_spec.
    case_bool_decide; [done|]. by rewrite bool_decide_eq_true_2.
Qed.

(** ** Joining and leaving a room *)

(** C9.  When [join_channel] passes the gate, the socket is added to the
    room and the handler makes exactly two emissions, in this order:
    [user_joined] to the subscribers of the room other than the joiner,
    then [room_info] to all subscribers, the joiner included, with
    [onlineCount] the number of sockets in the room at that moment.  The
    database is not consulted for the count. *)
Theorem join_channel_broadcasts (st : state) (sid : nat) (s : socket)
    (channelId : Z) :
  isMember (pool st) channelId (userId s) = true →
  room (join_channel st sid s channelId).1 channelId
  = {[sid]} ∪ room st channelId
  ∧ (join_channel st sid s channelId).2
    = [ {| recipients := room st channelId ∖ {[sid]};
           payload := user_joined (userId s) (username s) channelId |};
        {| recipients := {[sid]} ∪ room st channelId;
           payload :=
             room_info channelId (size ({[sid]} ∪ room st channelId)) |} ]
  ∧ pool (join_channel st sid s channelId).1 = pool st.
Proof.
  intros H. unfold join_channel. rewrite (query_member_found _ _ _ H).
  apply isMember_true in H.
  rewrite bool_decide_eq_false_2 by lia. cbv zeta. cbn [fst snd].
  unfold Io.socket_to, Io.io_to. rewrite roomSize_room, !room_join.
  rewrite decide_True by done. repeat split. do 2 f_equal. set_solver.
Qed.

Lemma join_channel_broadcasts_witness :
  isMember (pool Scenario.chatting) 1 (userId Scenario.bob) = true
  ∧ (join_channel Scenario.chatting 22%nat Scenario.bob 1).2
    = [ {| recipients := room Scenario.chatting 1 ∖ {[22%nat]};
           payload := user_joined 2 "bob" 1 |};
        {| recipients := {[22%nat]} ∪ room Scenario.chatting 1;
           payload :=
             room_info 1 (size ({[22%nat]} ∪ room Scenario.chatting 1)) |} ].
Proof.
  split; [vm_compute; reflexivity|].
  apply (join_channel_broadcasts Scenario.chatting 22%nat Scenario.bob 1).
  vm_compute; reflexivity.
Defined.

(** C10.  [leave_channel] from a socket that is not in the channel's room
    leaves every room, the database and the connected sockets as they
    were, and emits no [error] event.  (Its one emission is the
    [user_left] notice to the room's subscribers.) *)
Theorem leave_channel_not_subscribed (st : state) (sid : nat) (s : socket)
    (channelId : Z) :
  sid ∉ room st channelId →
  (∀ c, room (leave_channel st sid s channelId).1 c = room st c)
  ∧ pool (leave_channel st sid s channelId).1 = pool st
  ∧ sockets (leave_channel st sid s channelId).1 = sockets st
  ∧ (leave_channel st sid s channelId).2
    = [ {| recipients := room st channelId;
           payload := user_left (userId s) (username s) channelId |} ]
  ∧ Forall (λ e, is_error (payload e) = false)
           (leave_channel st sid s channelId).2.
Proof.
  intros H. unfold leave_channel; simpl. repeat split.
  - intros c. by apply room_leave_absent.
  - unfold Io.socket_to. rewrite room_leave_absent by done.
    do 2 f_equal. set_solver.
  - by repeat constructor.
Qed.

Lemma leave_channel_not_subscribed_witness :
  (30%nat ∉ room Scenario.chatting 1)
  ∧ (∀ c, room (leave_channel Scenario.chatting 30%nat Scenario.carol 1).1 c
          = room Scenario.chatting c).
Proof.
  assert (30%nat ∉ room Scenario.chatting 1) as H
    by (vm_compute; intros H; discriminate H).
  split; [exact H|].
  apply (leave_channel_not_subscribed Scenario.chatting 30%nat
           Scenario.carol 1 H).
Defined.

(** ** Forced removal *)

Section forced_removal.
Implicit Types (st : state) (sid : nat) (s : socket).

(** The kick handler once its two checks have passed. *)
Lemma kick_user_from_channel_by_creator st sid s channelId t row rest :
  Sql.select_channel (pool st) channelId = row :: rest →
  creator_id row = userId s →
  let fetched := Io.fetchSockets st channelId in
  let r := kick_user_from_channel st sid s channelId t in
  pool r.1 = pool st ∧ sockets r.1 = sockets st
  ∧ (∀ c, room r.1 c
          = if decide (c = channelId)
            then room st channelId ∖ list_to_set (kicked_sockets t fetched)
            else room st c)
  ∧ r.2 = Io.io_to st channelId (user_kicked channelId t)
          :: ((λ k, Io.socket_emit k (force_leave_channel channelId))
                <$> kicked_sockets t fetched)
          ++ [ Io.io_to r.1 channelId
                 (member_removed_notification channelId t) ].
Proof.
  intros Hsel Hcr. unfold kick_user_from_channel.
  rewrite (query_channel_found _ _ _ _ Hsel).
  rewrite bool_decide_eq_false_2 by (intros H; by apply H).
  pose proof (kick_loop_spec channelId t (Io.fetchSockets st channelId) st)
    as (Hp & Hs & Hr & Ho).
  destruct (kick_loop channelId t (Io.fetchSockets st channelId) st)
    as [st1 forced].
  simpl in *. by rewrite Ho.
Qed.

End forced_removal.

(** C2.  When the removal ran to completion (the DELETE request answered
    200 and the creator's socket then sent [kick_user_from_channel]), the
    target is no longer a member, no connected socket of the target is
    left in the channel's room, and every socket of the target that was in
    the room got an emission of [force_leave_channel {channelId}]
    addressed to it alone.  The kick handler raised no error. *)
Theorem forced_removal_evicts (st : state) (sid : nat) (s : socket)
    (channelId targetUserId : Z) (st' : state) (out : list emission) :
  forced_removal st sid s channelId targetUserId = Some (st', out) →
  isMember (pool st') channelId targetUserId = false
  ∧ (∀ k sk, sockets st' !! k = Some sk → userId sk = targetUserId →
             k ∉ room st' channelId)
  ∧ (∀ k sk, sockets st !! k = Some sk → userId sk = targetUserId →
             k ∈ room st channelId →
             {| recipients := {[k]};
                payload := force_leave_channel channelId |} ∈ out)
  ∧ Forall (λ e, is_error (payload e) = false) out.
Proof.
  unfold forced_removal.
  pose proof (removeUserFromChannel_cases (pool st) (userId s) channelId
                targetUserId) as Hcases.
  destruct (removeUserFromChannel (pool st) (userId s) channelId targetUserId)
    as [db1 res]. simpl in Hcases.
  destruct Hcases as [[_ Hno]|(-> & Hok & _ & row & rest & Hsel & Hcr)];
    [by rewrite bool_decide_eq_false_2|].
  rewrite bool_decide_eq_true_2 by done. intros [= Hkick].
  set (st1 := with_pool st (Sql.delete_member (pool st) channelId
                              targetUserId)) in *.
  pose proof (kick_user_from_channel_by_creator st1 sid s channelId
                targetUserId row rest Hsel Hcr) as H.
  rewrite Hkick in H. simpl in H. destruct H as (Hp & Hs & Hr & Ho).
  assert (∀ k sk, sockets st !! k = Some sk → userId sk = targetUserId →
                  k ∈ room st channelId →
                  k ∈ kicked_sockets targetUserId
                        (Io.fetchSockets st1 channelId)) as Hkicked.
  { intros k sk Hk Hu Hin. apply elem_of_kicked_sockets. exists sk.
    split; [|done]. by apply elem_of_fetchSockets. }
  repeat split.
  - rewrite Hp. apply isMember_false. unfold st1; simpl.
    rewrite delete_member_select. by rewrite decide_True.
  - intros k sk Hk Hu Hin. rewrite Hs in Hk.
    rewrite Hr, decide_True in Hin by done.
    apply elem_of_difference in Hin as [Hin Hnot]. apply Hnot.
    apply elem_of_list_to_set. by apply (Hkicked k sk).
  - intros k sk Hk Hu Hin. rewrite Ho. right. apply elem_of_app. left.
    apply list_elem_of_fmap. exists k. split; [done|]. by apply (Hkicked k sk).
  - rewrite Ho. constructor; [done|]. apply Forall_app. split.
    + apply Forall_fmap, Forall_forall. by intros.
    + by repeat constructor.
Qed.

Lemma forced_removal_evicts_witness :
  isMember
    (pool (default (Scenario.chatting, [])
             (forced_removal Scenario.chatting 10%nat Scenario.alice 1 2)).1)
    1 2 = false
  ∧ (20%nat ∉ room (default (Scenario.chatting, [])
                      (forced_removal Scenario.chatting 10%nat
                         Scenario.alice 1 2)).1 1)
  ∧ (21%nat ∉ room (default (Scenario.chatting, [])
                      (forced_removal Scenario.chatting 10%nat
                         Scenario.alice 1 2)).1 1).
Proof.
  pose proof (forced_removal_evicts Scenario.chatting 10%nat Scenario.alice
                1 2
                (default (Scenario.chatting, [])
                   (forced_removal Scenario.chatting 10%nat
                      Scenario.alice 1 2)).1
                (default (Scenario.chatting, [])
                   (forced_removal Scenario.chatting 10%nat
                      Scenario.alice 1 2)).2) as H.
  destruct H as (Hm & Hgone & _).
  - vm_compute; reflexivity.
  - split; [exact Hm|]. split.
    + apply (Hgone 20%nat Scenario.bob); vm_compute; reflexivity.
    + apply (Hgone 21%nat Scenario.bob); vm_compute; reflexivity.
Defined.

(** ** Invariants of the tables *)

Section invariants.
Implicit Types (db : database) (st : state).

Lemma send_message_tables st sid s channelId content now :
  channels (pool (send_message st sid s channelId content now).1)
  = channels (pool st)
  ∧ channel_members (pool (send_message st sid s channelId content now).1)
    = channel_members (pool st).
Proof.
  unfold send_message.
  destruct (Sql.query_member (pool st) channelId (userId s)); [|done].
  case_bool_decide; [done|].
  destruct (Sql.insert_message _ _ _ _ _) as [db1 o] eqn:E.
  apply insert_message_tables in E as (_ & Hc & Hm & _).
  destruct o as [row|]; [|done].
  by destruct (Sql.select_user db1 (userId s)).
Qed.

Lemma step_tables st r : tables_step (pool st) (pool (step st r)).
Proof.
  destruct r as [name email color | u name descr now | u c now | u c t
                 | u c l o | sid h | sid | sid c | sid c
                 | sid c content now | sid c b | sid c t]; simpl.
  - by destruct (register_tables (pool st) name email color); constructor 1.
  - destruct (createChannel_tables (pool st) u name descr now)
      as [[Hc Hm]|(row & mrow & Hc & Hm & Hcr & Hmc & Hmu & Hfc & Hfm)].
    + by constructor 1.
    + apply (tables_created _ _ row mrow); by rewrite ?Hcr.
  - destruct (joinChannel_tables (pool st) u c now)
      as [Hc [Hm|(mrow & Hm & Hnone & Hmc & Hmu)]].
    + by constructor 1.
    + apply (tables_joined _ _ mrow); by rewrite ?Hmc, ?Hmu.
  - destruct (removeUserFromChannel_cases (pool st) u c t)
      as [[-> _]|(-> & _ & Hne & row & rest & Hsel & Hcr)].
    + by constructor 1.
    + apply (tables_removed _ _ c t row rest); [done..|]. by rewrite Hcr.
  - by constructor 1.
  - unfold connection. by destruct (authenticate h); constructor 1.
  - by constructor 1.
  - unfold on_socket. destruct (sockets st !! sid) as [s|];
      [|by constructor 1].
    unfold join_channel.
    destruct (Sql.query_member (pool st) c (userId s)); [|by constructor 1].
    by case_bool_decide; constructor 1.
  - unfold on_socket. by destruct (sockets st !! sid); constructor 1.
  - unfold on_socket. destruct (sockets st !! sid) as [s|];
      [|by constructor 1].
    by destruct (send_message_tables st sid s c content now); constructor 1.
  - unfold on_socket. destruct (sockets st !! sid) as [s|];
      [|by constructor 1].
    unfold typing.
    destruct (Sql.query_member (pool st) c (userId s)); [|by constructor 1].
    by case_bool_decide; constructor 1.
  - unfold on_socket. destruct (sockets st !! sid) as [s|];
      [|by constructor 1].
    rewrite kick_user_from_channel_pool. by constructor 1.
Qed.

Lemma run_invariant (I : database → Prop) :
  (∀ db db', tables_step db db' → I db → I db') →
  ∀ rs st, I (pool st) → I (pool (run st rs)).
Proof.
  intros Hstep rs. induction rs as [|r rs IH]; intros st HI; [done|].
  simpl. apply IH. by apply (Hstep (pool st)), HI; apply step_tables.
Qed.

End invariants.

Section preservation.
Implicit Types (db : database).

Lemma select_channel_ext db db' id :
  channels db' = channels db →
  Sql.select_channel db' id = Sql.select_channel db id.
Proof. unfold Sql.select_channel. by intros ->. Qed.

Lemma select_member_app db db' mrow c u :
  channel_members db' = channel_members db ++ [mrow] →
  Sql.select_member db' c u
  = Sql.select_member db c u
    ++ (if decide (cm_channel_id mrow = c ∧ cm_user_id mrow = u)
        then [mrow] else []).
Proof.
  unfold Sql.select_member. intros ->.
  by rewrite filter_app, filter_cons, filter_nil.
Qed.



Lemma tables_step_unique db db' :
  tables_step db db' → membership_unique db → membership_unique db'.
Proof.
  intros [_ Hm|row mrow _ Hm Hmc Hmu _ Hnone|mrow _ Hm Hnone
          |c u row rest -> _ _] Hu.
  - by apply (membership_unique_ext db).
  - intros c u. rewrite (select_member_app _ _ _ _ _ Hm), length_app.
    case_decide as Hd; simpl; [|specialize (Hu c u); lia].
    destruct Hd as [<- <-]. rewrite Hmc, Hmu, Hnone. simpl. lia.
  - intros c u. rewrite (select_member_app _ _ _ _ _ Hm), length_app.
    case_decide as Hd; simpl; [|specialize (Hu c u); lia].
    destruct Hd as [<- <-]. rewrite Hnone. simpl. lia.
  - by apply delete_member_unique.
Qed.




Lemma membership_unique_NoDup db :
  NoDup ((λ r, (cm_channel_id r, cm_user_id r)) <$> channel_members db) →
  membership_unique db.
Proof.
  intros Hnd c u. unfold Sql.select_member.
  induction (channel_members db) as [|r l IH]; simpl; [lia|].
  apply NoDup_cons in Hnd as [Hr Hl]. rewrite filter_cons.
  case_decide as Hd; simpl; [|by apply IH].
  destruct (filter _ l) as [|x l'] eqn:E; simpl; [lia|].
  destruct Hr. apply list_elem_of_fmap. exists x.
  assert (x ∈ filter (λ r, cm_channel_id r = c ∧ cm_user_id r = u) l)
    as Hx by (rewrite E; left).
  apply list_elem_of_filter in Hx as [[-> ->] Hx].
  by destruct Hd as [-> ->].
Qed.

Lemma channels_primary_key_NoDup db :
  NoDup (c_id <$> channels db) → channels_primary_key db.
Proof.
  intros Hnd id. unfold Sql.select_channel.
  induction (channels db) as [|r l IH]; simpl; [lia|].
  apply NoDup_cons in Hnd as [Hr Hl]. rewrite filter_cons.
  case_decide as Hd; simpl; [|by apply IH].
  destruct (filter _ l) as [|x l'] eqn:E; simpl; [lia|].
  destruct Hr. apply list_elem_of_fmap. exists x.
  assert (x ∈ filter (λ c, c_id c = id) l) as Hx by (rewrite E; left).
  apply list_elem_of_filter in Hx as [-> Hx]. done.
Qed.

Lemma creator_is_member_Forall db :
  Forall (λ c, isMember db (c_id c) (creator_id c) = true) (channels db) →
  creator_is_member db.
Proof. intros H c Hc. by apply (proj1 (Forall_forall _ _) H). Qed.

End preservation.

(** ** One membership row per channel and user *)

(** C8.  Starting from any database with at most one membership row per
    (channel, user), the empty one included, after any sequence of requests
    there is still at most one row per pair; and in the state reached, a
    join request from a user who is already a member is answered 400
    "Already a member of this channel" and leaves the database as it
    was. *)
Theorem membership_rows_unique (st : state) (rs : list request) :
  membership_unique (pool st) →
  membership_unique (pool (run st rs))
  ∧ (∀ userId channelId now,
       isMember (pool (run st rs)) channelId userId = true →
       joinChannel (pool (run st rs)) userId channelId now
       = (pool (run st rs),
          {| status := 400;
             json := json_error "Already a member of this channel" |})).
Proof.
  intros Hu. split.
  - by apply (run_invariant membership_unique tables_step_unique).
  - intros userId channelId now Hm. unfold joinChannel.
    rewrite (query_member_found _ _ _ Hm). apply isMember_true in Hm.
    by rewrite bool_decide_eq_true_2.
Qed.

Lemma membership_rows_unique_witness :
  membership_unique (pool initial_state)
  ∧ membership_unique
      (pool (run initial_state
               (Scenario.setup
                  ++ [ http_joinChannel 2 1 102; http_joinChannel 3 1 103;
                       http_removeUserFromChannel 1 1 2 ])))
  ∧ joinChannel (pool (run initial_state Scenario.setup)) 2 1 102
    = (pool (run initial_state Scenario.setup),
       {| status := 400;
          json := json_error "Already a member of this channel" |}).
Proof.
  assert (membership_unique (pool initial_state)) as H0 by (intros c u; simpl; lia).
  split; [exact H0|]. split.
  - apply (membership_rows_unique initial_state _ H0).
  - apply (membership_rows_unique initial_state Scenario.setup H0).
    vm_compute; reflexivity.
Defined.

(** ** The creator stays a member *)




(** The real-time kick has no check of its own for the creator: Alice
    kicking herself is evicted from the room and told to leave; her
    membership row stays. *)
Example kick_user_from_channel_creator_self :
  let r := kick_user_from_channel Scenario.chatting 10%nat Scenario.alice 1 1 in
  elements (room r.1 1) = [20%nat; 21%nat]
  ∧ ((λ e, (elements (recipients e), payload e)) <$> r.2)
    = [ ([10%nat; 20%nat; 21%nat], user_kicked 1 1);
        ([10%nat], force_leave_channel 1);
        ([20%nat; 21%nat], member_removed_notification 1 1) ]
  ∧ isMember (pool r.1) 1 1 = true.
Proof. vm_compute. repeat split. Qed.

(** ** Blank messages *)

Section trim.

Lemma trimStart_whitespace (s : js_string) :
  Forall (λ c, Js.is_whitespace c = true) s → Js.trimStart s = [].
Proof.
  induction 1 as [|c s Hc _ IH]; simpl; [done|]. by rewrite Hc.
Qed.

Lemma trim_whitespace (s : js_string) :
  Forall (λ c, Js.is_whitespace c = true) s → Js.trim s = [].
Proof.
  intros H. unfold Js.trim, Js.trimEnd.
  by rewrite (trimStart_whitespace s H).
Qed.

(** [trimStart] returns a suffix that does not begin with whitespace. *)
Lemma trimStart_suffix (s : js_string) :
  ∃ p, s = p ++ Js.trimStart s
       ∧ Forall (λ c, Js.is_whitespace c = true) p
       ∧ match Js.trimStart s with
         | [] => True
         | c :: _ => Js.is_whitespace c = false
         end.
Proof.
  induction s as [|c s (p & Hs & Hp & Hhd)]; simpl.
  - by exists [].
  - destruct (Js.is_whitespace c) eqn:E.
    + exists (c :: p). simpl. rewrite <- Hs. by repeat constructor.
    + exists []. by rewrite E.
Qed.

(** The form's test [!message.trim()] holds exactly for the strings made
    of whitespace only. *)
Lemma trim_falsy (s : js_string) :
  Js.truthy (Js.trim s) = false ↔
  Forall (λ c, Js.is_whitespace c = true) s.
Proof.
  split; [|intros H; by rewrite (trim_whitespace s H)].
  unfold Js.trim, Js.trimEnd. intros H.
  destruct (trimStart_suffix s) as (p & Hs & Hp & Hhd).
  destruct (Js.trimStart s) as [|c t] eqn:E.
  - rewrite Hs, app_nil_r. exact Hp.
  - destruct (trimStart_suffix (reverse (c :: t))) as (q & Hr & Hq & _).
    destruct (Js.trimStart (reverse (c :: t))) as [|d u].
    + rewrite app_nil_r in Hr. rewrite <- Hr in Hq.
      rewrite Forall_reverse in Hq. apply Forall_cons in Hq as [Hc _].
      congruence.
    + rewrite reverse_cons in H. by destruct (reverse u).
Qed.

End trim.

(** C4, as the code has it.  A message made of whitespace only (or empty)
    is dropped by the client's form: [handleSubmit] returns without calling
    [onSendMessage] or [onTyping], and nothing is reported.  The server's
    [send_message] handler does not look at the content: handed the same
    content by a member, once the insert went through it has stored the
    content as it came and has broadcast it to the room. *)
Theorem blank_message_dropped_by_form_only (content : js_string)
    (onSendMessage : js_string → list Client.effect)
    (onTyping : bool → list Client.effect) (disabled : bool)
    (f : Client.MessageInput)
    (st : state) (sid : nat) (s : socket) (channelId now : Z)
    (db1 : database) (row : message_row) (u : user_row) (us : list user_row) :
  Forall (λ c, Js.is_whitespace c = true) content →
  Client.message f = content →
  isMember (pool st) channelId (userId s) = true →
  Sql.insert_message (pool st) channelId (userId s) content now
  = (db1, Some row) →
  Sql.select_user db1 (userId s) = u :: us →
  Client.handleSubmit onSendMessage onTyping disabled f = (f, [])
  ∧ send_message st sid s channelId content now
    = (with_pool st db1,
       [ {| recipients := room st channelId;
            payload := new_message
                         {| md_message := row;
                            md_username := u_username u;
                            md_avatar_color := u_avatar_color u |} |} ])
  ∧ messages db1 = messages (pool st) ++ [row]
  ∧ m_content row = content.
Proof.
  intros Hws Hf Hm Hins Hu. split; [|split].
  - unfold Client.handleSubmit. rewrite Hf, (trim_whitespace content Hws).
    simpl. by rewrite orb_true_r.
  - unfold send_message. rewrite (query_member_found _ _ _ Hm).
    apply isMember_true in Hm.
    rewrite bool_decide_eq_false_2 by lia. rewrite Hins. simpl.
    by rewrite Hu.
  - by apply insert_message_tables in Hins as (_ & _ & _ & ? & _ & _ & ? & _).
Qed.

Lemma blank_message_dropped_by_form_only_witness :
  Client.handleSubmit (Client.handleSendMessage
                         {| Client.channel := Some 1;
                            Client.canSendMessages := true;
                            Client.has_socket := true |})
    (Client.handleTyping
       {| Client.channel := Some 1; Client.canSendMessages := true;
          Client.has_socket := true |})
    false
    {| Client.message := Scenario.blank; Client.isTyping := true;
       Client.typingTimeout := true |}
  = ({| Client.message := Scenario.blank; Client.isTyping := true;
        Client.typingTimeout := true |}, [])
  ∧ messages (Sql.insert_message (pool Scenario.chatting) 1 2
                Scenario.blank 200).1
    = [ {| m_id := 1; m_channel_id := 1; m_user_id := 2;
           m_content := Scenario.blank; m_created_at := 200 |} ].
Proof.
  pose proof (blank_message_dropped_by_form_only Scenario.blank
                (Client.handleSendMessage
                   {| Client.channel := Some 1;
                      Client.canSendMessages := true;
                      Client.has_socket := true |})
                (Client.handleTyping
                   {| Client.channel := Some 1;
                      Client.canSendMessages := true;
                      Client.has_socket := true |})
                false
                {| Client.message := Scenario.blank; Client.isTyping := true;
                   Client.typingTimeout := true |}
                Scenario.chatting 20%nat Scenario.bob 1 200
                (Sql.insert_message (pool Scenario.chatting) 1 2
                   Scenario.blank 200).1
                {| m_id := 1; m_channel_id := 1; m_user_id := 2;
                   m_content := Scenario.blank; m_created_at := 200 |}
                {| u_id := 2; u_username := "bob";
                   u_email := "bob@example.org";
                   u_avatar_color := "#388e3c" |}
                []) as H.
  destruct H as (Hform & _ & Hrows & _).
  - apply (bool_decide_unpack _). vm_compute. exact I.
  - reflexivity.
  - vm_compute; reflexivity.
  - vm_compute; reflexivity.
  - vm_compute; reflexivity.
  - split; [exact Hform | exact Hrows].
Defined.

(** What the form does send is the trimmed text, followed by the end of
    the typing signal. *)
Example submit_trims :
  Client.submit {| Client.channel := Some 1; Client.canSendMessages := true;
                   Client.has_socket := true |}
                {| Client.message := [32; 104; 105; 10]%N;
                   Client.isTyping := true; Client.typingTimeout := true |}
  = ({| Client.message := []; Client.isTyping := false;
        Client.typingTimeout := false |},
     [ Client.emit_send_message 1 Scenario.hi; Client.emit_typing 1 false ]).
Proof. reflexivity. Qed.

(** C4 as stated fails on the server: Bob, a member of channel 1, sends
    two spaces; the row is stored and [new_message] goes to the three
    sockets of the room, with no error. *)
Lemma send_message_blank_is_stored_and_broadcast :
  Forall (λ c, Js.is_whitespace c = true) Scenario.blank
  ∧ isMember (pool Scenario.chatting) 1 (userId Scenario.bob) = true
  ∧ messages (pool (send_message Scenario.chatting 20%nat Scenario.bob 1
                      Scenario.blank 200).1)
    = [ {| m_id := 1; m_channel_id := 1; m_user_id := 2;
           m_content := Scenario.blank; m_created_at := 200 |} ]
  ∧ ((λ e, (elements (recipients e), payload e))
       <$> (send_message Scenario.chatting 20%nat Scenario.bob 1
              Scenario.blank 200).2)
    = [ ([10%nat; 20%nat; 21%nat],
         new_message
           {| md_message :=
                {| m_id := 1; m_channel_id := 1; m_user_id := 2;
                   m_content := Scenario.blank; m_created_at := 200 |};
              md_username := "bob"; md_avatar_color := "#388e3c" |}) ].
Proof.
  split; [by repeat constructor|]. vm_compute. repeat split.
Qed.

(** ** Message history *)

Global Instance created_at_desc_total : Total created_at_desc.
Proof. intros a b. unfold created_at_desc. lia. Qed.

Global Instance created_at_desc_trans : Transitive created_at_desc.
Proof. intros a b c. unfold created_at_desc. lia. Qed.

Section history.
Implicit Types (db : database) (rows : list message_data).

(** What a successful answer of [getChannelMessages] holds: at most
    [limit] messages of the channel, oldest first. *)
Lemma getChannelMessages_oldest_first db requesterId channelId limit offset
    rows :
  getChannelMessages db requesterId channelId limit offset
  = {| status := 200; json := json_messages rows |} →
  (length rows ≤ Z.to_nat (or_default limit 50))%nat
  ∧ Forall (λ d, m_channel_id (md_message d) = channelId) rows
  ∧ Sorted (flip created_at_desc) rows.
Proof.
  unfold getChannelMessages, select_channel_messages, channel_messages.
  case_bool_decide; [done|]. intros [= <-].
  set (selected := filter _ _).
  repeat split.
  - rewrite length_reverse, length_take. lia.
  - apply Forall_reverse, Forall_take, Forall_drop.
    rewrite (merge_sort_Permutation created_at_desc selected).
    apply Forall_forall. intros d Hd.
    by apply list_elem_of_filter in Hd as [Hd _].
  - apply Sorted_reverse, StronglySorted_Sorted.
    pose proof (StronglySorted_merge_sort created_at_desc selected) as Hs.
    rewrite <- (take_drop (Z.to_nat (or_default offset 0))
                  (merge_sort created_at_desc selected)) in Hs.
    apply StronglySorted_app_1_r in Hs.
    rewrite <- (take_drop (Z.to_nat (or_default limit 50))
                  (drop _ _)) in Hs.
    by apply StronglySorted_app_1_l in Hs.
Qed.

(** Without an offset, the messages left out are not newer than the
    ones returned. *)
Lemma getChannelMessages_most_recent db requesterId channelId limit rows
    d d' :
  getChannelMessages db requesterId channelId limit None
  = {| status := 200; json := json_messages rows |} →
  d ∈ rows →
  d' ∈ (m ← messages db; u ← Sql.select_user db (m_user_id m);
        [ {| md_message := m; md_username := u_username u;
             md_avatar_color := u_avatar_color u |} ]) →
  m_channel_id (md_message d') = channelId →
  d' ∉ rows →
  m_created_at (md_message d') ≤ m_created_at (md_message d).
Proof.
  unfold getChannelMessages, select_channel_messages, channel_messages.
  case_bool_decide; [done|]. simpl. rewrite drop_0.
  set (selected := filter _ _). intros [= <-] Hd Hd' Hc Hnot.
  rewrite elem_of_reverse in Hd, Hnot.
  pose proof (StronglySorted_merge_sort created_at_desc selected) as Hs.
  rewrite <- (take_drop (Z.to_nat (or_default limit 50))
                (merge_sort created_at_desc selected)) in Hs.
  apply (StronglySorted_app_1_elem_of _ _ _ d d' Hs Hd).
  assert (d' ∈ merge_sort created_at_desc selected) as Hin.
  { rewrite (merge_sort_Permutation created_at_desc selected).
    by apply list_elem_of_filter. }
  rewrite <- (take_drop (Z.to_nat (or_default limit 50))) in Hin.
  by apply elem_of_app in Hin as [Hin|Hin].
Qed.

End history.

(** C5, where the code departs from it.  Carol is not a member of channel
    1, yet her request for its history is answered 200 with the channel's
    two messages, oldest first: [getChannelMessages] never looks at the
    requester. *)
Theorem getChannelMessages_answers_non_member :
  isMember (pool (run Scenario.chatting Scenario.talk)) 1 3 = false
  ∧ getChannelMessages (pool (run Scenario.chatting Scenario.talk)) 3 1
      None None
    = {| status := 200;
         json := json_messages
           [ {| md_message :=
                  {| m_id := 1; m_channel_id := 1; m_user_id := 1;
                     m_content := Scenario.hi; m_created_at := 200 |};
                md_username := "alice"; md_avatar_color := "#1976d2" |};
             {| md_message :=
                  {| m_id := 2; m_channel_id := 1; m_user_id := 2;
                     m_content := Scenario.blank; m_created_at := 201 |};
                md_username := "bob"; md_avatar_color := "#388e3c" |} ] |}.
Proof. split; vm_compute; reflexivity. Qed.

(** The count sent on a join is the number of sockets in the room, not the
    number of members: channel 1 has two members, and a fourth socket
    joining the room is told 4. *)
Example join_channel_counts_sockets :
  length (filter (λ r, cm_channel_id r = 1)
                 (channel_members (pool Scenario.chatting))) = 2%nat
  ∧ payload <$> (join_channel Scenario.chatting 22%nat Scenario.bob 1).2
    = [ user_joined 2 "bob" 1; room_info 1 4 ].
Proof. split; vm_compute; reflexivity. Qed.

(** * Further properties of the real-time layer *)

Section rooms_frame.
Implicit Types (st : state) (sid : nat) (s : socket) (c t : Z).

Lemma room_leaveAll st sid c :
  default ∅ (Io.leaveAll sid (rooms st) !! c) = room st c ∖ {[sid]}.
Proof.
  unfold Io.leaveAll, room. rewrite lookup_omap.
  destruct (rooms st !! c) as [r|]; simpl; [|set_solver].
  unfold Io.without. by case_decide as H; simpl; [rewrite H|].
Qed.

Lemma send_message_rooms st sid s c content now :
  rooms (send_message st sid s c content now).1 = rooms st
  ∧ sockets (send_message st sid s c content now).1 = sockets st.
Proof.
  unfold send_message.
  destruct (Sql.query_member (pool st) c (userId s)); [|done].
  case_bool_decide; [done|].
  destruct (Sql.insert_message _ _ _ _ _) as [db1 [row|]]; [|done].
  by destruct (Sql.select_user db1 (userId s)).
Qed.

(** The kick handler takes sockets out of rooms and puts none in. *)
Lemma kick_user_from_channel_room_subseteq st sid s c t c' :
  room (kick_user_from_channel st sid s c t).1 c' ⊆ room st c'.
Proof.
  unfold kick_user_from_channel.
  destruct (Sql.query_channel (pool st) c) as [[|row rest]|]; [done| |done].
  case_bool_decide; [done|].
  pose proof (kick_loop_spec c t (Io.fetchSockets st c) st) as (_ & _ & Hr & _).
  destruct (kick_loop c t (Io.fetchSockets st c) st) as [st1 out].
  simpl in *. rewrite Hr. case_decide; [subst; set_solver | done].
Qed.

Lemma kicked_sockets_nil st c t :
  (∀ k sk, k ∈ room st c → sockets st !! k = Some sk → userId sk ≠ t) →
  kicked_sockets t (Io.fetchSockets st c) = [].
Proof.
  intros H. destruct (kicked_sockets t (Io.fetchSockets st c)) as [|k l] eqn:E;
    [done|].
  assert (k ∈ kicked_sockets t (Io.fetchSockets st c)) as Hk
    by (rewrite E; left).
  apply elem_of_kicked_sockets in Hk as (sk & Hin & Hu).
  apply elem_of_fetchSockets in Hin as [Hroom Hs].
  by destruct (H k sk Hroom Hs).
Qed.

End rooms_frame.

(** [join_channel] from a socket whose user is not a member subscribes
    nothing and answers the sender alone (ids in the INTEGER range). *)
Lemma join_channel_not_a_member (st : state) (sid : nat) (s : socket)
    (channelId : Z) :
  isMember (pool st) channelId (userId s) = false →
  Sql.int4 channelId → Sql.int4 (userId s) →
  join_channel st sid s channelId
  = (st, [ {| recipients := {[sid]};
              payload := ev_error "Not a member of this channel" |};
           {| recipients := {[sid]};
              payload := force_leave_channel channelId |} ]).
Proof.
  intros H Hc Hu. unfold join_channel.
  by rewrite (query_member_absent _ _ _ H Hc Hu).
Qed.

(** X1.  A removed user is locked out: once the removal ran to completion
    (DELETE answered 200, then the creator's kick), any socket of the
    removed user that asks to join the room again is refused with "Not a
    member of this channel" and [force_leave_channel], one that tries to
    post is refused with "You are not a member of this channel" and
    [force_leave_channel], and its typing signals are dropped; none of the
    three changes the state. *)
Theorem removed_user_is_locked_out (st : state) (sid : nat) (s : socket)
    (channelId targetUserId : Z) (st' : state) (out : list emission)
    (k : nat) (sk : socket) (content : js_string) (now : Z) (isTyping : bool) :
  forced_removal st sid s channelId targetUserId = Some (st', out) →
  userId sk = targetUserId →
  join_channel st' k sk channelId
  = (st', [ {| recipients := {[k]};
               payload := ev_error "Not a member of this channel" |};
            {| recipients := {[k]};
               payload := force_leave_channel channelId |} ])
  ∧ send_message st' k sk channelId content now
    = (st', [ {| recipients := {[k]};
                 payload := ev_error "You are not a member of this channel" |};
              {| recipients := {[k]};
                 payload := force_leave_channel channelId |} ])
  ∧ typing st' k sk channelId isTyping = (st', []).
Proof.
  unfold forced_removal. intros Hrun Hu.
  pose proof (removeUserFromChannel_cases (pool st) (userId s) channelId
                targetUserId) as Hcases.
  pose proof (removeUserFromChannel_range (pool st) (userId s) channelId
                targetUserId) as Hrange.
  destruct (removeUserFromChannel (pool st) (userId s) channelId targetUserId)
    as [db1 res]. simpl in Hcases, Hrange.
  destruct Hcases as [[_ Hno]|(-> & Hok & _)];
    [by rewrite bool_decide_eq_false_2 in Hrun|].
  destruct (Hrange Hok) as [Hrc Hru].
  rewrite bool_decide_eq_true_2 in Hrun by done. injection Hrun as Hkick.
  assert (pool st' = Sql.delete_member (pool st) channelId targetUserId)
    as Hpool.
  { pose proof (kick_user_from_channel_pool
                  (with_pool st (Sql.delete_member (pool st) channelId
                                   targetUserId))
                  sid s channelId targetUserId) as Hp.
    by rewrite Hkick in Hp. }
  assert (isMember (pool st') channelId (userId sk) = false) as Hgone.
  { apply isMember_false.
    rewrite Hpool, Hu, delete_member_select. by rewrite decide_True. }
  rewrite <- Hu in Hru.
  split; [|split].
  - by apply join_channel_not_a_member.
  - unfold send_message. by rewrite (query_member_absent _ _ _ Hgone Hrc Hru).
  - unfold typing. by rewrite (query_member_absent _ _ _ Hgone Hrc Hru).
Qed.

Lemma removed_user_is_locked_out_witness :
  join_channel
    (default (Scenario.chatting, [])
       (forced_removal Scenario.chatting 10%nat Scenario.alice 1 2)).1
    20%nat Scenario.bob 1
  = ((default (Scenario.chatting, [])
        (forced_removal Scenario.chatting 10%nat Scenario.alice 1 2)).1,
     [ {| recipients := {[20%nat]};
          payload := ev_error "Not a member of this channel" |};
       {| recipients := {[20%nat]}; payload := force_leave_channel 1 |} ]).
Proof.
  apply (removed_user_is_locked_out Scenario.chatting 10%nat Scenario.alice
           1 2
           (default (Scenario.chatting, [])
              (forced_removal Scenario.chatting 10%nat Scenario.alice 1 2)).1
           (default (Scenario.chatting, [])
              (forced_removal Scenario.chatting 10%nat Scenario.alice 1 2)).2
           20%nat Scenario.bob Scenario.hi 600 true).
  - vm_compute; reflexivity.
  - reflexivity.
Defined.

(** X2.  A socket gets into a room by one request only: its own
    [join_channel] for that channel, made while its user is a member.  No
    HTTP request and no other socket event adds a socket to a room. *)
Theorem rooms_grow_only_by_join (st : state) (r : request) (sid : nat)
    (channelId : Z) :
  sid ∈ room (step st r) channelId →
  sid ∉ room st channelId →
  ∃ s, r = on_join_channel sid channelId
       ∧ sockets st !! sid = Some s
       ∧ isMember (pool st) channelId (userId s) = true.
Proof.
  intros Hin Hout.
  destruct r as [name email color | u name descr now | u c now | u c t
                 | u c l o | k h | k | k c | k c
                 | k c content now | k c b | k c t]; simpl in Hin;
    try (by destruct Hout).
  - unfold connection in Hin. by destruct (authenticate h); destruct Hout.
  - unfold room, disconnect in Hin; simpl in Hin.
    rewrite room_leaveAll in Hin. set_solver.
  - unfold on_socket in Hin.
    destruct (sockets st !! k) as [s|] eqn:Hs; [|by destruct Hout].
    unfold join_channel in Hin. rewrite query_member_spec in Hin.
    case_bool_decide; [by destruct Hout|].
    case_bool_decide as Hm; [by destruct Hout|].
    cbv zeta in Hin. cbn [fst snd] in Hin. rewrite room_join in Hin.
    case_decide as Hc; [subst c|by destruct Hout].
    assert (sid = k) as -> by set_solver.
    exists s. repeat split; [done|]. apply isMember_true. lia.
  - unfold on_socket in Hin.
    destruct (sockets st !! k) as [s|]; [|by destruct Hout].
    unfold leave_channel in Hin. cbv zeta in Hin. cbn [fst snd] in Hin.
    rewrite room_leave in Hin. case_decide; [subst; set_solver|].
    by destruct Hout.
  - unfold on_socket in Hin.
    destruct (sockets st !! k) as [s|]; [|by destruct Hout].
    destruct (send_message_rooms st k s c content now) as [Hr _].
    unfold room in Hin, Hout. rewrite Hr in Hin. by destruct Hout.
  - unfold on_socket in Hin.
    destruct (sockets st !! k) as [s|]; [|by destruct Hout].
    unfold typing in Hin.
    destruct (Sql.query_member (pool st) c (userId s)); [|by destruct Hout].
    by case_bool_decide; destruct Hout.
  - unfold on_socket in Hin.
    destruct (sockets st !! k) as [s|]; [|by destruct Hout].
    apply kick_user_from_channel_room_subseteq in Hin. by destruct Hout.
Qed.

Lemma rooms_grow_only_by_join_witness :
  ∃ s, on_join_channel 20%nat 1 = on_join_channel 20%nat 1
       ∧ sockets (run Scenario.chatting [on_leave_channel 20%nat 1]) !! 20%nat
         = Some s
       ∧ isMember (pool (run Scenario.chatting [on_leave_channel 20%nat 1]))
                  1 (userId s) = true.
Proof.
  apply (rooms_grow_only_by_join
           (run Scenario.chatting [on_leave_channel 20%nat 1])
           (on_join_channel 20%nat 1) 20%nat 1).
  - vm_compute; reflexivity.
  - vm_compute. intros H; discriminate H.
Defined.

(** X3.  A kick by the channel's creator is scoped to that channel and to
    the kicked user: the room loses exactly the connected sockets of that
    user, every other socket stays, every other room is untouched, and so
    are the database and the connected sockets. *)
Theorem kick_user_from_channel_scope (st : state) (sid : nat) (s : socket)
    (channelId kickedUserId : Z) (row : channel_row) (rest : list channel_row) :
  Sql.select_channel (pool st) channelId = row :: rest →
  creator_id row = userId s →
  (∀ k, k ∈ room (kick_user_from_channel st sid s channelId kickedUserId).1
               channelId
        ↔ k ∈ room st channelId
          ∧ ¬ ∃ sk, sockets st !! k = Some sk ∧ userId sk = kickedUserId)
  ∧ (∀ c, c ≠ channelId →
          room (kick_user_from_channel st sid s channelId kickedUserId).1 c
          = room st c)
  ∧ pool (kick_user_from_channel st sid s channelId kickedUserId).1 = pool st
  ∧ sockets (kick_user_from_channel st sid s channelId kickedUserId).1
    = sockets st.
Proof.
  intros Hsel Hcr.
  destruct (kick_user_from_channel_by_creator st sid s channelId kickedUserId
              row rest Hsel Hcr) as (Hp & Hs & Hr & _).
  repeat split; try done.
  - rewrite Hr, decide_True in H by done. set_solver.
  - rewrite Hr, decide_True in H by done.
    intros (sk & Hk & Hu). apply elem_of_difference in H as [Hin Hnot].
    apply Hnot, elem_of_list_to_set, elem_of_kicked_sockets.
    exists sk. split; [|done]. by apply elem_of_fetchSockets.
  - intros [Hin Hnot]. rewrite Hr, decide_True by done.
    apply elem_of_difference. split; [done|].
    intros Hk. apply elem_of_list_to_set, elem_of_kicked_sockets in Hk
      as (sk & Hf & Hu).
    apply elem_of_fetchSockets in Hf as [_ Hf]. apply Hnot. by exists sk.
  - intros c Hc. rewrite Hr. by rewrite decide_False.
Qed.

Lemma kick_user_from_channel_scope_witness :
  (∀ c, c ≠ 1 →
        room (kick_user_from_channel Scenario.chatting 10%nat Scenario.alice
                1 2).1 c
        = room Scenario.chatting c)
  ∧ sockets (kick_user_from_channel Scenario.chatting 10%nat Scenario.alice
               1 2).1
    = sockets Scenario.chatting.
Proof.
  pose proof (kick_user_from_channel_scope Scenario.chatting 10%nat
                Scenario.alice 1 2
                {| c_id := 1; c_name := "general"; c_description := "";
                   creator_id := 1 |} []) as H.
  destruct H as (_ & Hrooms & _ & Hsockets).
  - vm_compute; reflexivity.
  - reflexivity.
  - split; [exact Hrooms | exact Hsockets].
Defined.

(** X4.  A kick is refused when no channel row matches or when the
    channel's creator is not the requester: the requester alone gets one
    error, nothing is broadcast and the state is unchanged.  The error is
    "Only channel creator can remove members" for an existing channel of
    somebody else, "Channel not found" for a missing channel whose id is in
    the INTEGER range, and "Error kicking user" for an id outside it, where
    the query itself raises. *)
Theorem kick_user_from_channel_refused (st : state) (sid : nat) (s : socket)
    (channelId kickedUserId : Z) :
  (∀ row rest, Sql.select_channel (pool st) channelId = row :: rest →
               creator_id row ≠ userId s) →
  kick_user_from_channel st sid s channelId kickedUserId
  = (st, [ {| recipients := {[sid]};
              payload :=
                ev_error
                  (if bool_decide (Sql.select_channel (pool st) channelId = [])
                   then if bool_decide (Sql.int4 channelId)
                        then "Channel not found"
                        else "Error kicking user"
                   else "Only channel creator can remove members") |} ]).
Proof.
  intros H. unfold kick_user_from_channel, Sql.query_channel.
  destruct (Sql.select_channel (pool st) channelId) as [|row rest].
  - rewrite (bool_decide_eq_true_2 ([] = [])) by done.
    by case_bool_decide.
  - rewrite bool_decide_eq_true_2 by (by apply (H row rest)).
    by rewrite bool_decide_eq_false_2.
Qed.

Lemma kick_user_from_channel_refused_witness :
  kick_user_from_channel Scenario.chatting 20%nat Scenario.bob 1 1
  = (Scenario.chatting,
     [ {| recipients := {[20%nat]};
          payload := ev_error "Only channel creator can remove members" |} ])
  ∧ kick_user_from_channel Scenario.chatting 20%nat Scenario.bob 7 1
    = (Scenario.chatting,
       [ {| recipients := {[20%nat]};
            payload := ev_error "Channel not found" |} ])
  ∧ kick_user_from_channel Scenario.chatting 10%nat Scenario.alice
      2147483648 2
    = (Scenario.chatting,
       [ {| recipients := {[10%nat]};
            payload := ev_error "Error kicking user" |} ]).
Proof.
  split; [|split].
  - apply (kick_user_from_channel_refused Scenario.chatting 20%nat
             Scenario.bob 1 1).
    intros row rest H. vm_compute in H. injection H as <- _.
    vm_compute. intros H; discriminate H.
  - apply (kick_user_from_channel_refused Scenario.chatting 20%nat
             Scenario.bob 7 1).
    intros row rest H. vm_compute in H. discriminate H.
  - apply (kick_user_from_channel_refused Scenario.chatting 10%nat
             Scenario.alice 2147483648 2).
    intros row rest H. vm_compute in H. discriminate H.
Defined.

(** X5.  Kicking a user who has no connected socket in the room is not an
    error: the creator's kick changes no room and makes just the two
    broadcasts, [user_kicked] and [member_removed_notification], with no
    [force_leave_channel].  A second kick after a first is such a kick. *)
Theorem kick_user_from_channel_nobody_in_room (st : state) (sid : nat)
    (s : socket) (channelId kickedUserId : Z) (row : channel_row)
    (rest : list channel_row) :
  Sql.select_channel (pool st) channelId = row :: rest →
  creator_id row = userId s →
  (∀ k sk, k ∈ room st channelId → sockets st !! k = Some sk →
           userId sk ≠ kickedUserId) →
  (∀ c, room (kick_user_from_channel st sid s channelId kickedUserId).1 c
        = room st c)
  ∧ (kick_user_from_channel st sid s channelId kickedUserId).2
    = [ {| recipients := room st channelId;
           payload := user_kicked channelId kickedUserId |};
        {| recipients := room st channelId;
           payload := member_removed_notification channelId kickedUserId |} ].
Proof.
  intros Hsel Hcr Hnone.
  destruct (kick_user_from_channel_by_creator st sid s channelId kickedUserId
              row rest Hsel Hcr) as (_ & _ & Hr & Ho).
  rewrite (kicked_sockets_nil st channelId kickedUserId Hnone) in Hr, Ho.
  assert (∀ c, room (kick_user_from_channel st sid s channelId
                       kickedUserId).1 c = room st c) as Hsame.
  { intros c. rewrite Hr. case_decide; [subst; set_solver | done]. }
  split; [done|]. rewrite Ho. unfold Io.io_to. by rewrite Hsame.
Qed.

Lemma kick_user_from_channel_nobody_in_room_witness :
  (kick_user_from_channel
     (kick_user_from_channel Scenario.chatting 10%nat Scenario.alice 1 2).1
     10%nat Scenario.alice 1 2).2
  = [ {| recipients :=
           room (kick_user_from_channel Scenario.chatting 10%nat
                   Scenario.alice 1 2).1 1;
         payload := user_kicked 1 2 |};
      {| recipients :=
           room (kick_user_from_channel Scenario.chatting 10%nat
                   Scenario.alice 1 2).1 1;
         payload := member_removed_notification 1 2 |} ].
Proof.
  apply (kick_user_from_channel_nobody_in_room
           (kick_user_from_channel Scenario.chatting 10%nat
              Scenario.alice 1 2).1
           10%nat Scenario.alice 1 2
           {| c_id := 1; c_name := "general"; c_description := "";
              creator_id := 1 |} []).
  - vm_compute; reflexivity.
  - reflexivity.
  - intros k sk Hk Hs.
    assert (room (kick_user_from_channel Scenario.chatting 10%nat
                    Scenario.alice 1 2).1 1 = {[10%nat]}) as Hroom
      by (apply (bool_decide_unpack _); vm_compute; exact I).
    rewrite Hroom in Hk. apply elem_of_singleton in Hk as ->.
    vm_compute in Hs. injection Hs as <-. vm_compute. intros H; discriminate H.
Defined.

(** X6.  Subscribing is idempotent and is undone by leaving: for a member,
    a second [join_channel] leaves every room as the first one left it,
    and [join_channel] followed by [leave_channel], from a socket that was
    not in the room, gives every room its subscribers back. *)
Theorem join_channel_twice_and_leave (st : state) (sid : nat) (s : socket)
    (channelId : Z) :
  isMember (pool st) channelId (userId s) = true →
  sid ∉ room st channelId →
  (∀ c, room (join_channel (join_channel st sid s channelId).1 sid s
                channelId).1 c
        = room (join_channel st sid s channelId).1 c)
  ∧ (∀ c, room (leave_channel (join_channel st sid s channelId).1 sid s
                  channelId).1 c
          = room st c).
Proof.
  intros Hm Hout. pose proof (query_member_found _ _ _ Hm) as Hq.
  apply isMember_true in Hm.
  assert (join_channel st sid s channelId
          = (with_rooms st (Io.join sid channelId (rooms st)),
             (join_channel st sid s channelId).2)) as Hj.
  { unfold join_channel. rewrite Hq.
    by rewrite bool_decide_eq_false_2 by lia. }
  rewrite Hj. cbn [fst]. split; intros c.
  - unfold join_channel at 1. cbn [pool with_rooms]. rewrite Hq.
    rewrite bool_decide_eq_false_2 by lia. cbv zeta. cbn [fst].
    rewrite !room_join. case_decide; [|done].
    rewrite decide_True by done. set_solver.
  - unfold leave_channel. cbv zeta. cbn [fst].
    rewrite room_leave, !room_join.
    repeat case_decide; subst; try done. set_solver.
Qed.

Lemma join_channel_twice_and_leave_witness :
  room (join_channel (join_channel Scenario.chatting 22%nat
                        Scenario.bob 1).1 22%nat Scenario.bob 1).1 1
  = room (join_channel Scenario.chatting 22%nat Scenario.bob 1).1 1
  ∧ room (leave_channel (join_channel Scenario.chatting 22%nat
                           Scenario.bob 1).1 22%nat Scenario.bob 1).1 1
    = room Scenario.chatting 1.
Proof.
  destruct (join_channel_twice_and_leave Scenario.chatting 22%nat
              Scenario.bob 1) as [Htwice Hleave].
  - vm_compute; reflexivity.
  - vm_compute. intros H; discriminate H.
  - split; [apply Htwice | apply Hleave].
Defined.

(** * Further properties of the controllers *)

Section effects.
Implicit Types (db : database).

Lemma filter_app_nonempty {A} (P : A → Prop) `{∀ x, Decision (P x)}
    (l k : list A) :
  filter P l ≠ [] → filter P (l ++ k) ≠ [].
Proof. rewrite filter_app. by destruct (filter P l). Qed.

Lemma select_user_grows db db' id :
  users db `prefix_of` users db' →
  Sql.select_user db id ≠ [] → Sql.select_user db' id ≠ [].
Proof.
  unfold Sql.select_user. intros [k ->]. apply filter_app_nonempty.
Qed.

Lemma select_channel_grows db db' id :
  channels db `prefix_of` channels db' →
  Sql.select_channel db id ≠ [] → Sql.select_channel db' id ≠ [].
Proof.
  unfold Sql.select_channel. intros [k ->]. apply filter_app_nonempty.
Qed.

Lemma insert_user_effect db username email color db1 o :
  Sql.insert_user db username email color = (db1, o) →
  channels db1 = channels db ∧ channel_members db1 = channel_members db
  ∧ messages db1 = messages db
  ∧ match o with
    | None => users db1 = users db
    | Some row =>
        users db1 = users db ++ [row]
        ∧ u_username row = username ∧ u_email row = email
        ∧ u_avatar_color row = color
        ∧ Sql.select_user db (u_id row) = []
        ∧ Sql.select_user_by_email_or_username db email username = []
    end.
Proof.
  unfold Sql.insert_user. case_bool_decide; [by intros [= <- <-]|].
  case_bool_decide as Hc; intros [= <- <-]; simpl.
  - destruct Hc. by repeat split.
  - done.
Qed.

Lemma insert_channel_references db name description creatorId db1 row :
  Sql.insert_channel db name description creatorId = (db1, Some row) →
  Sql.select_user db creatorId ≠ []
  ∧ c_name row = name ∧ c_description row = description.
Proof.
  unfold Sql.insert_channel. case_bool_decide; [done|].
  case_bool_decide as Hc; intros [= <- <-]; simpl.
  by destruct Hc as (_ & ?).
Qed.

Lemma insert_member_references db channelId userId now db1 row :
  Sql.insert_member db channelId userId now = (db1, Some row) →
  Sql.select_channel db channelId ≠ [] ∧ Sql.select_user db userId ≠ []
  ∧ cm_joined_at row = now.
Proof.
  unfold Sql.insert_member. case_bool_decide as Hc; intros [= <- <-]; simpl.
  by destruct Hc as (_ & ? & ? & _).
Qed.

Lemma insert_message_references db channelId userId content now db1 row :
  Sql.insert_message db channelId userId content now = (db1, Some row) →
  Sql.select_channel db channelId ≠ [] ∧ Sql.select_user db userId ≠ [].
Proof.
  unfold Sql.insert_message. case_bool_decide; [done|].
  case_bool_decide as Hc; intros [= <- <-]; simpl.
  by destruct Hc as (_ & ? & ?).
Qed.

(** [register] adds at most one user and touches no other table. *)
Lemma register_effect db username email color :
  let r := register db username email color in
  channels r.1 = channels db ∧ channel_members r.1 = channel_members db
  ∧ messages r.1 = messages db
  ∧ ((users r.1 = users db ∧ status r.2 ≠ 201)
     ∨ ∃ row, users r.1 = users db ++ [row]
              ∧ r.2 = {| status := 201;
                         json := json_user "User registered successfully"
                                           row |}
              ∧ u_username row = username ∧ u_email row = email
              ∧ u_avatar_color row = color
              ∧ Sql.select_user db (u_id row) = []
              ∧ Sql.select_user_by_email_or_username db email username = []).
Proof.
  unfold register. case_bool_decide; [simpl; by auto 10|].
  case_bool_decide; [simpl; by auto 10|].
  destruct (Sql.insert_user db username email color) as [db1 [row|]] eqn:E;
    apply insert_user_effect in E as (Hc & Hm & Hmsg & Hu); simpl.
  - repeat split; try done. right. exists row. by destruct Hu as (?&?&?&?&?&?).
  - repeat split; try done. by left.
Qed.

(** [createChannel] either adds the channel with its creator's membership
    or leaves the four tables as they were. *)
Lemma createChannel_effect db creatorId name description now :
  let r := createChannel db creatorId name description now in
  users r.1 = users db ∧ messages r.1 = messages db
  ∧ ((channels r.1 = channels db ∧ channel_members r.1 = channel_members db
      ∧ r.2 = {| status := 500;
                 json := json_error "Server error creating channel" |})
     ∨ ∃ row mrow,
         channels r.1 = channels db ++ [row]
         ∧ channel_members r.1 = channel_members db ++ [mrow]
         ∧ r.2 = {| status := 201;
                    json := json_channel "Channel created successfully" row |}
         ∧ creator_id row = creatorId ∧ c_name row = name
         ∧ c_description row = description
         ∧ cm_channel_id mrow = c_id row ∧ cm_user_id mrow = creatorId
         ∧ Sql.select_channel db (c_id row) = []
         ∧ Sql.select_user db creatorId ≠ []).
Proof.
  unfold createChannel.
  destruct (Sql.insert_channel _ _ _ _) as [db1 [row|]] eqn:E1;
    [|simpl; by auto 10].
  pose proof (insert_channel_references _ _ _ _ _ _ E1) as (Hu & Hn & Hd).
  apply insert_channel_tables in E1 as (Hu1 & Hm1 & Hmsg1 & Hc1 & Hcr & Hfresh).
  destruct (Sql.insert_member _ _ _ _) as [db2 [mrow|]] eqn:E2;
    [|simpl; by auto 10].
  apply insert_member_members in E2
    as (Hu2 & Hc2 & Hmsg2 & Hm2 & Hmc & Hmu & _).
  simpl. rewrite Hu2, Hu1, Hmsg2, Hmsg1. repeat split.
  right. exists row, mrow. rewrite Hc2, Hc1, Hm2, Hm1. by repeat split.
Qed.

(** [joinChannel] adds one membership row on 200 and nothing otherwise. *)
Lemma joinChannel_effect db userId channelId now :
  let r := joinChannel db userId channelId now in
  users r.1 = users db ∧ channels r.1 = channels db
  ∧ messages r.1 = messages db
  ∧ ((channel_members r.1 = channel_members db ∧ status r.2 ≠ 200)
     ∨ ∃ mrow,
         channel_members r.1 = channel_members db ++ [mrow]
         ∧ r.2 = {| status := 200;
                    json := json_message "Successfully joined channel" |}
         ∧ cm_channel_id mrow = channelId ∧ cm_user_id mrow = userId
         ∧ cm_joined_at mrow = now
         ∧ Sql.select_member db channelId userId = []
         ∧ Sql.select_channel db channelId ≠ []
         ∧ Sql.select_user db userId ≠ []).
Proof.
  unfold joinChannel.
  destruct (Sql.query_member db channelId userId); [|simpl; by auto 10].
  case_bool_decide; [simpl; by auto 10|].
  destruct (Sql.insert_member _ _ _ _) as [db1 [mrow|]] eqn:E.
  - pose proof (insert_member_references _ _ _ _ _ _ E) as (Hc & Hu & Hj).
    apply insert_member_members in E as (? & ? & ? & ? & ? & ? & ?). simpl.
    repeat split; try done. right. exists mrow. by repeat split.
  - apply insert_member_members in E as (? & ? & ? & ?). simpl.
    repeat split; try done. by left.
Qed.

(** [send_message] adds at most one message and touches nothing else. *)
Lemma send_message_effect (st : state) sid s channelId content now :
  let r := send_message st sid s channelId content now in
  users (pool r.1) = users (pool st) ∧ channels (pool r.1) = channels (pool st)
  ∧ channel_members (pool r.1) = channel_members (pool st)
  ∧ (messages (pool r.1) = messages (pool st)
     ∨ ∃ row, messages (pool r.1) = messages (pool st) ++ [row]
              ∧ m_channel_id row = channelId ∧ m_user_id row = userId s
              ∧ m_content row = content ∧ m_created_at row = now
              ∧ Sql.select_channel (pool st) channelId ≠ []
              ∧ Sql.select_user (pool st) (userId s) ≠ []).
Proof.
  unfold send_message.
  destruct (Sql.query_member (pool st) channelId (userId s));
    [|simpl; by auto].
  case_bool_decide; [simpl; by auto|].
  destruct (Sql.insert_message _ _ _ _ _) as [db1 [row|]] eqn:E.
  - pose proof (insert_message_references _ _ _ _ _ _ _ E) as (Hc & Hu).
    apply insert_message_tables in E as (? & ? & ? & ? & ? & ? & ? & ?).
    assert (∀ out : list emission,
              users (pool (with_pool st db1, out).1) = users (pool st)
              ∧ channels (pool (with_pool st db1, out).1) = channels (pool st)
              ∧ channel_members (pool (with_pool st db1, out).1)
                = channel_members (pool st)
              ∧ (messages (pool (with_pool st db1, out).1) = messages (pool st)
                 ∨ ∃ row0, messages (pool (with_pool st db1, out).1)
                           = messages (pool st) ++ [row0]
                           ∧ m_channel_id row0 = channelId
                           ∧ m_user_id row0 = userId s
                           ∧ m_content row0 = content
                           ∧ m_created_at row0 = now
                           ∧ Sql.select_channel (pool st) channelId ≠ []
                           ∧ Sql.select_user (pool st) (userId s) ≠ []))
      as Hall.
    { intros out. simpl. repeat split; try done. right. exists row.
      by repeat split. }
    destruct (Sql.select_user db1 (userId s)); apply Hall.
  - apply insert_message_tables in E as (? & ? & ? & ?). simpl. by auto.
Qed.

End effects.

Section growth.
Implicit Types (db : database) (st : state).

Lemma step_grows st r :
  users (pool st) `prefix_of` users (pool (step st r))
  ∧ channels (pool st) `prefix_of` channels (pool (step st r))
  ∧ messages (pool st) `prefix_of` messages (pool (step st r)).
Proof.
  assert (∀ st', pool st' = pool st →
                 users (pool st) `prefix_of` users (pool st')
                 ∧ channels (pool st) `prefix_of` channels (pool st')
                 ∧ messages (pool st) `prefix_of` messages (pool st'))
    as Hsame by (by intros st' ->).
  destruct r as [name email color | u name descr now | u c now | u c t
                 | u c l o | sid h | sid | sid c | sid c
                 | sid c content now | sid c b | sid c t]; simpl.
  - destruct (register_effect (pool st) name email color)
      as (-> & _ & -> & [[-> _]|(row & -> & _)]); repeat split; try done.
    by apply prefix_app_r.
  - destruct (createChannel_effect (pool st) u name descr now)
      as (-> & -> & [(-> & _)|(row & mrow & -> & _)]); repeat split; try done.
    by apply prefix_app_r.
  - by destruct (joinChannel_effect (pool st) u c now) as (-> & -> & -> & _).
  - destruct (removeUserFromChannel_cases (pool st) u c t)
      as [[-> _]|(-> & _)]; done.
  - done.
  - unfold connection. by destruct (authenticate h).
  - done.
  - unfold on_socket. destruct (sockets st !! sid) as [s|]; [|done].
    apply Hsame. unfold join_channel.
    destruct (Sql.query_member (pool st) c (userId s)); [|done].
    by case_bool_decide.
  - unfold on_socket. by destruct (sockets st !! sid).
  - unfold on_socket. destruct (sockets st !! sid) as [s|]; [|done].
    destruct (send_message_effect st sid s c content now)
      as (-> & -> & _ & [->|(row & -> & _)]); repeat split; try done.
    by apply prefix_app_r.
  - unfold on_socket. destruct (sockets st !! sid) as [s|]; [|done].
    apply Hsame. unfold typing.
    destruct (Sql.query_member (pool st) c (userId s)); [|done].
    by case_bool_decide.
  - unfold on_socket. destruct (sockets st !! sid) as [s|]; [|done].
    apply Hsame, kick_user_from_channel_pool.
Qed.

Lemma references_kept_grow db db' :
  users db `prefix_of` users db' →
  channels db `prefix_of` channels db' →
  references_kept db →
  (∀ c, c ∈ channels db' →
        c ∈ channels db ∨ Sql.select_user db (creator_id c) ≠ []) →
  (∀ r, r ∈ channel_members db' →
        r ∈ channel_members db
        ∨ (Sql.select_channel db' (cm_channel_id r) ≠ []
           ∧ Sql.select_user db (cm_user_id r) ≠ [])) →
  (∀ m, m ∈ messages db' →
        m ∈ messages db
        ∨ (Sql.select_channel db (m_channel_id m) ≠ []
           ∧ Sql.select_user db (m_user_id m) ≠ [])) →
  references_kept db'.
Proof.
  intros Hu Hc (Rc & Rm & Rmsg) Hc' Hm' Hmsg'. repeat split.
  - intros c Hin. apply (select_user_grows db db' _ Hu).
    destruct (Hc' c Hin) as [Hold|Hnew]; [by apply Rc | done].
  - destruct (Hm' r H) as [Hold|[Hnew _]]; [|done].
    apply (select_channel_grows db db' _ Hc). by apply Rm.
  - apply (select_user_grows db db' _ Hu).
    destruct (Hm' r H) as [Hold|[_ Hnew]]; [by apply Rm | done].
  - apply (select_channel_grows db db' _ Hc).
    destruct (Hmsg' m H) as [Hold|[Hnew _]]; [by apply Rmsg | done].
  - apply (select_user_grows db db' _ Hu).
    destruct (Hmsg' m H) as [Hold|[_ Hnew]]; [by apply Rmsg | done].
Qed.

Lemma references_kept_same db db' :
  users db' = users db → channels db' = channels db →
  channel_members db' = channel_members db → messages db' = messages db →
  references_kept db → references_kept db'.
Proof.
  intros Hu Hc Hm Hmsg HR.
  apply (references_kept_grow db db'); rewrite ?Hu, ?Hc, ?Hm, ?Hmsg;
    try done; by left.
Qed.

Lemma references_step st r :
  references_kept (pool st) → references_kept (pool (step st r)).
Proof.
  intros HR.
  assert (∀ st', pool st' = pool st → references_kept (pool st'))
    as Hsame by (by intros st' ->).
  destruct r as [name email color | u name descr now | u c now | u c t
                 | u c l o | sid h | sid | sid c | sid c
                 | sid c content now | sid c b | sid c t]; simpl.
  - destruct (register_effect (pool st) name email color)
      as (Hc & Hm & Hmsg & [[Hu _]|(row & Hu & _)]).
    + by apply (references_kept_same (pool st)).
    + apply (references_kept_grow (pool st)); rewrite ?Hu, ?Hc, ?Hm, ?Hmsg;
        try done; try (by left). by apply prefix_app_r.
  - destruct (createChannel_effect (pool st) u name descr now)
      as (Hu & Hmsg & [(Hc & Hm & _)
                      |(row & mrow & Hc & Hm & _ & Hcr & _ & _
                        & Hmc & Hmu & _ & Hex)]).
    + by apply (references_kept_same (pool st)).
    + apply (references_kept_grow (pool st)); rewrite ?Hu, ?Hmsg;
        try done; try (by left).
      * rewrite Hc. by apply prefix_app_r.
      * intros x. rewrite Hc, elem_of_app, list_elem_of_singleton.
        intros [Hold| ->]; [by left | right; by rewrite Hcr].
      * intros x. rewrite Hm, elem_of_app, list_elem_of_singleton.
        intros [Hold| ->]; [by left | right]. rewrite Hmc, Hmu. split; [|done].
        unfold Sql.select_channel. rewrite Hc, filter_app, filter_cons.
        rewrite decide_True by done. by destruct (filter _ (channels _)).
  - destruct (joinChannel_effect (pool st) u c now)
      as (Hu & Hc & Hmsg & [[Hm _]
                           |(mrow & Hm & _ & Hmc & Hmu & _ & _ & Hch & Hus)]).
    + by apply (references_kept_same (pool st)).
    + apply (references_kept_grow (pool st)); rewrite ?Hu, ?Hc, ?Hmsg;
        try done; try (by left).
      intros x. rewrite Hm, elem_of_app, list_elem_of_singleton.
      intros [Hold| ->]; [by left | right]. rewrite Hmc, Hmu. split; [|done].
      by rewrite (select_channel_ext (pool st)).
  - destruct (removeUserFromChannel_cases (pool st) u c t)
      as [[-> _]|(-> & _)]; [done|].
    apply (references_kept_grow (pool st)); try done; try (by left).
    intros x Hx. left. simpl in Hx.
    by apply list_elem_of_filter in Hx as [_ Hx].
  - done.
  - unfold connection. by destruct (authenticate h).
  - done.
  - unfold on_socket. destruct (sockets st !! sid) as [s|]; [|done].
    apply Hsame. unfold join_channel.
    destruct (Sql.query_member (pool st) c (userId s)); [|done].
    by case_bool_decide.
  - unfold on_socket. by destruct (sockets st !! sid).
  - unfold on_socket. destruct (sockets st !! sid) as [s|]; [|done].
    destruct (send_message_effect st sid s c content now)
      as (Hu & Hc & Hm & [Hmsg|(row & Hmsg & Hrc & Hru & _ & _ & Hch & Hus)]).
    + by apply (references_kept_same (pool st)).
    + apply (references_kept_grow (pool st)); rewrite ?Hu, ?Hc, ?Hm;
        try done; try (by left).
      intros x. rewrite Hmsg, elem_of_app, list_elem_of_singleton.
      intros [Hold| ->]; [by left | right]. by rewrite Hrc, Hru.
  - unfold on_socket. destruct (sockets st !! sid) as [s|]; [|done].
    apply Hsame. unfold typing.
    destruct (Sql.query_member (pool st) c (userId s)); [|done].
    by case_bool_decide.
  - unfold on_socket. destruct (sockets st !! sid) as [s|]; [|done].
    apply Hsame, kick_user_from_channel_pool.
Qed.

Lemma references_kept_Forall db :
  Forall (λ c, Sql.select_user db (creator_id c) ≠ []) (channels db) →
  Forall (λ r, Sql.select_channel db (cm_channel_id r) ≠ []
               ∧ Sql.select_user db (cm_user_id r) ≠ []) (channel_members db) →
  Forall (λ m, Sql.select_channel db (m_channel_id m) ≠ []
               ∧ Sql.select_user db (m_user_id m) ≠ []) (messages db) →
  references_kept db.
Proof.
  rewrite !Forall_forall. intros Hc Hm Hmsg. repeat split;
    first [by apply Hc | by apply Hm | by apply Hmsg].
Qed.

End growth.

(** X7.  Users, channels and messages are append-only: whatever requests
    arrive, the rows these tables held are still there, unchanged and in
    the same order, with any new rows after them. *)
Theorem tables_append_only (st : state) (rs : list request) :
  users (pool st) `prefix_of` users (pool (run st rs))
  ∧ channels (pool st) `prefix_of` channels (pool (run st rs))
  ∧ messages (pool st) `prefix_of` messages (pool (run st rs)).
Proof.
  revert st. induction rs as [|r rs IH]; intros st; [done|]. simpl.
  destruct (step_grows st r) as (Hu & Hc & Hm).
  destruct (IH (step st r)) as (Hu' & Hc' & Hm').
  repeat split; by etrans.
Qed.

(** X8.  The REFERENCES clauses hold after every request: once every
    channel's creator, every membership's channel and user, and every
    message's channel and author exist, no sequence of requests leaves a
    row pointing at a missing user or channel. *)
Theorem references_kept_by_requests (st : state) (rs : list request) :
  references_kept (pool st) → references_kept (pool (run st rs)).
Proof.
  revert st. induction rs as [|r rs IH]; intros st H; [done|]. simpl.
  by apply IH, references_step.
Qed.

Lemma references_kept_by_requests_witness :
  references_kept
    (pool (run Scenario.chatting
             (Scenario.talk ++ [ http_removeUserFromChannel 1 1 2;
                                 http_joinChannel 3 1 300 ]))).
Proof.
  apply (references_kept_by_requests Scenario.chatting).
  apply references_kept_Forall;
    apply (bool_decide_unpack _); vm_compute; exact I.
Defined.

Section membership_changes.
Implicit Types (db : database).

(** Deleting the membership of a pair that has none removes no row. *)
Lemma delete_member_absent db channelId userId :
  Sql.select_member db channelId userId = [] →
  channel_members (Sql.delete_member db channelId userId)
  = channel_members db.
Proof.
  unfold Sql.select_member, Sql.delete_member; simpl.
  induction (channel_members db) as [|r l IH]; [done|].
  rewrite !filter_cons. case_decide as Hd; [done|].
  intros H. rewrite decide_True by done. by rewrite IH.
Qed.

Lemma select_member_other db db' mrow c u :
  channel_members db' = channel_members db ++ [mrow] →
  (c, u) ≠ (cm_channel_id mrow, cm_user_id mrow) →
  Sql.select_member db' c u = Sql.select_member db c u.
Proof.
  intros Hm Hne. rewrite (select_member_app _ _ _ _ _ Hm).
  rewrite decide_False; [by rewrite app_nil_r|].
  intros [<- <-]. by apply Hne.
Qed.

End membership_changes.



(** X10.  [removeUserFromChannel] refuses, and leaves the database as it
    was, when no channel row matches or when the requester is not the
    channel's creator: 403 "Only channel creator can remove members" for an
    existing channel of somebody else, 404 "Channel not found" for a
    missing channel whose id is in the INTEGER range, and 500 "Server error
    removing user" for an id outside it, where the query itself raises. *)
Theorem removeUserFromChannel_refused (db : database)
    (requesterId channelId userId : Z) :
  (∀ row rest, Sql.select_channel db channelId = row :: rest →
               creator_id row ≠ requesterId) →
  removeUserFromChannel db requesterId channelId userId
  = (db,
     if bool_decide (Sql.select_channel db channelId = [])
     then if bool_decide (Sql.int4 channelId)
          then {| status := 404; json := json_error "Channel not found" |}
          else {| status := 500;
                  json := json_error "Server error removing user" |}
     else {| status := 403;
             json := json_error "Only channel creator can remove members" |}).
Proof.
  intros H. unfold removeUserFromChannel, Sql.query_channel.
  destruct (Sql.select_channel db channelId) as [|row rest].
  - rewrite (bool_decide_eq_true_2 ([] = [])) by done.
    by case_bool_decide.
  - rewrite bool_decide_eq_true_2 by (by apply (H row rest)).
    by rewrite bool_decide_eq_false_2.
Qed.

Lemma removeUserFromChannel_refused_witness :
  removeUserFromChannel (pool Scenario.chatting) 2 1 3
  = (pool Scenario.chatting,
     {| status := 403;
        json := json_error "Only channel creator can remove members" |})
  ∧ removeUserFromChannel (pool Scenario.chatting) 1 7 2
    = (pool Scenario.chatting,
       {| status := 404; json := json_error "Channel not found" |})
  ∧ removeUserFromChannel (pool Scenario.chatting) 1 2147483648 2
    = (pool Scenario.chatting,
       {| status := 500; json := json_error "Server error removing user" |}).
Proof.
  split; [|split].
  - apply (removeUserFromChannel_refused (pool Scenario.chatting) 2 1 3).
    intros row rest H. vm_compute in H. injection H as <- _.
    vm_compute. intros H; discriminate H.
  - apply (removeUserFromChannel_refused (pool Scenario.chatting) 1 7 2).
    intros row rest H. vm_compute in H. discriminate H.
  - apply (removeUserFromChannel_refused (pool Scenario.chatting) 1
             2147483648 2).
    intros row rest H. vm_compute in H. discriminate H.
Defined.

(** X11.  When [joinChannel] answers 200, the user was not a member
    before and is one afterwards, the channel and the user exist, every
    other (channel, user) pair has the rows it had, and users, channels and
    messages are untouched. *)
Theorem joinChannel_joined (db : database) (userId channelId now : Z) :
  status (joinChannel db userId channelId now).2 = 200 →
  isMember db channelId userId = false
  ∧ isMember (joinChannel db userId channelId now).1 channelId userId = true
  ∧ Sql.select_channel db channelId ≠ [] ∧ Sql.select_user db userId ≠ []
  ∧ (∀ c u, (c, u) ≠ (channelId, userId) →
            Sql.select_member (joinChannel db userId channelId now).1 c u
            = Sql.select_member db c u)
  ∧ users (joinChannel db userId channelId now).1 = users db
  ∧ channels (joinChannel db userId channelId now).1 = channels db
  ∧ messages (joinChannel db userId channelId now).1 = messages db.
Proof.
  intros Hok.
  destruct (joinChannel_effect db userId channelId now)
    as (Hu & Hc & Hmsg & [[_ Hno]
                         |(mrow & Hm & _ & Hmc & Hmu & _ & Hnone & Hch & Hus)]);
    [done|].
  repeat split; try done.
  - apply isMember_false. by rewrite Hnone.
  - apply isMember_elem. exists mrow. rewrite Hm. split; [|done].
    apply elem_of_app. right. by left.
  - intros c u Hne. apply (select_member_other db _ mrow); [done|].
    by rewrite Hmc, Hmu.
Qed.

Lemma joinChannel_joined_witness :
  isMember (pool Scenario.chatting) 1 3 = false
  ∧ isMember (joinChannel (pool Scenario.chatting) 3 1 300).1 1 3 = true.
Proof.
  pose proof (joinChannel_joined (pool Scenario.chatting) 3 1 300) as H.
  destruct H as (Hbefore & Hafter & _).
  - vm_compute; reflexivity.
  - split; [exact Hbefore | exact Hafter].
Defined.

(** X12.  A join request for a channel or by a user that does not exist
    is answered 500 "Server error joining channel" and leaves the four
    tables as they were: the foreign keys of [channel_members] refuse the
    row. *)
Theorem joinChannel_missing_reference (db : database)
    (userId channelId now : Z) :
  Sql.select_member db channelId userId = [] →
  Sql.select_channel db channelId = [] ∨ Sql.select_user db userId = [] →
  (joinChannel db userId channelId now).2
  = {| status := 500; json := json_error "Server error joining channel" |}
  ∧ users (joinChannel db userId channelId now).1 = users db
  ∧ channels (joinChannel db userId channelId now).1 = channels db
  ∧ channel_members (joinChannel db userId channelId now).1
    = channel_members db
  ∧ messages (joinChannel db userId channelId now).1 = messages db.
Proof.
  intros Hnone Hmiss. unfold joinChannel, Sql.query_member. rewrite Hnone.
  case_bool_decide; [|done].
  rewrite bool_decide_eq_false_2 by (simpl; lia).
  unfold Sql.insert_member.
  rewrite bool_decide_eq_false_2; [done|].
  intros (_ & Hc & Hu & _). by destruct Hmiss.
Qed.

Lemma joinChannel_missing_reference_witness :
  (joinChannel (pool Scenario.chatting) 3 7 300).2
  = {| status := 500; json := json_error "Server error joining channel" |}
  ∧ channel_members (joinChannel (pool Scenario.chatting) 3 7 300).1
    = channel_members (pool Scenario.chatting).
Proof.
  pose proof (joinChannel_missing_reference (pool Scenario.chatting) 3 7 300)
    as H.
  destruct H as (Hres & _ & _ & Hm & _).
  - vm_compute; reflexivity.
  - left. vm_compute; reflexivity.
  - split; [exact Hres | exact Hm].
Defined.

(** X13.  Joining and being removed again is a round trip on the
    membership table: after [joinChannel] answered 200 and
    [removeUserFromChannel] for the same channel and user answered 200,
    [channel_members] holds exactly the rows it held before the join. *)
Theorem join_then_remove_round_trip (db : database)
    (userId channelId now requesterId : Z) :
  status (joinChannel db userId channelId now).2 = 200 →
  status (removeUserFromChannel (joinChannel db userId channelId now).1
            requesterId channelId userId).2 = 200 →
  channel_members
    (removeUserFromChannel (joinChannel db userId channelId now).1
       requesterId channelId userId).1
  = channel_members db.
Proof.
  intros Hjoin Hremove.
  destruct (joinChannel_effect db userId channelId now)
    as (_ & _ & _ & [[_ Hno]|(mrow & Hm & _ & Hmc & Hmu & _ & Hnone & _)]);
    [done|].
  destruct (removeUserFromChannel_cases (joinChannel db userId channelId now).1
              requesterId channelId userId) as [[_ Hno]|(-> & _)]; [done|].
  simpl. rewrite Hm, filter_app, filter_cons, filter_nil.
  rewrite decide_False by (intros H; by apply H).
  rewrite app_nil_r.
  pose proof (delete_member_absent db channelId userId Hnone) as Habs.
  by simpl in Habs.
Qed.

Lemma join_then_remove_round_trip_witness :
  channel_members
    (removeUserFromChannel (joinChannel (pool Scenario.chatting) 3 1 300).1
       1 1 3).1
  = channel_members (pool Scenario.chatting).
Proof.
  apply (join_then_remove_round_trip (pool Scenario.chatting) 3 1 300 1);
    vm_compute; reflexivity.
Defined.



(** X15.  A [createChannel] request by a user who is not in [users] is
    answered 500 "Server error creating channel" and leaves the four
    tables as they were: the channel is refused by its foreign key and the
    transaction rolled back. *)
Theorem createChannel_rolled_back (db : database) (creatorId : Z)
    (name description : string) (now : Z) :
  Sql.select_user db creatorId = [] →
  (createChannel db creatorId name description now).2
  = {| status := 500; json := json_error "Server error creating channel" |}
  ∧ users (createChannel db creatorId name description now).1 = users db
  ∧ channels (createChannel db creatorId name description now).1 = channels db
  ∧ channel_members (createChannel db creatorId name description now).1
    = channel_members db
  ∧ messages (createChannel db creatorId name description now).1
    = messages db.
Proof.
  intros Hmiss.
  destruct (createChannel_effect db creatorId name description now)
    as (Hu & Hmsg & [(Hc & Hm & Hres)|(row & mrow & _ & _ & _ & _ & _ & _ & _
                                        & _ & _ & Hex)]);
    [done | by destruct Hex].
Qed.

Lemma createChannel_rolled_back_witness :
  (createChannel (pool Scenario.chatting) 9 "ghost" "" 400).2
  = {| status := 500; json := json_error "Server error creating channel" |}
  ∧ channels (createChannel (pool Scenario.chatting) 9 "ghost" "" 400).1
    = channels (pool Scenario.chatting).
Proof.
  destruct (createChannel_rolled_back (pool Scenario.chatting) 9 "ghost" ""
              400) as (Hres & _ & Hc & _).
  - vm_compute; reflexivity.
  - split; [exact Hres | exact Hc].
Defined.

(** * Further properties of the message history *)

Section history_order.
Implicit Types (db : database).



End history_order.



Section history_relation.
Implicit Types (db : database) (rows result : list message_data).

Lemma NoDup_fmap_eq {A B} (f : A → B) (l : list A) (x y : A) :
  NoDup (f <$> l) → x ∈ l → y ∈ l → f x = f y → x = y.
Proof.
  induction l as [|a l IH]; simpl; intros Hnd Hx Hy Hf.
  - by apply not_elem_of_nil in Hx.
  - apply NoDup_cons in Hnd as [Ha Hnd].
    apply elem_of_cons in Hx as [->|Hx]; apply elem_of_cons in Hy as [->|Hy].
    + done.
    + destruct Ha. rewrite Hf. apply list_elem_of_fmap. by exists y.
    + destruct Ha. rewrite <- Hf. apply list_elem_of_fmap. by exists x.
    + by apply IH.
Qed.

(** The order the merge sort gives is one of those the query may
    choose. *)
Lemma select_channel_messages_admissible db channelId limit offset result :
  select_channel_messages db channelId limit offset = Some result →
  query_channel_messages db channelId limit offset result.
Proof.
  unfold select_channel_messages. case_bool_decide as Hr; [done|].
  intros [= <-]. split; [done|].
  exists (merge_sort created_at_desc (channel_messages db channelId)).
  split; [apply merge_sort_Permutation|]. split; [|done].
  apply Sorted_merge_sort; apply _.
Qed.

Lemma getChannelMessages_admissible db requesterId channelId limit offset
    rows :
  getChannelMessages db requesterId channelId limit offset
  = {| status := 200; json := json_messages rows |} →
  history_answers db channelId limit offset rows.
Proof.
  unfold getChannelMessages.
  destruct (select_channel_messages _ _ _ _) as [result|] eqn:E; [|done].
  intros [= <-]. exists result. split; [|done].
  by apply select_channel_messages_admissible.
Qed.

(** The request is answered 200 unless the query raises. *)
Lemma getChannelMessages_answers db requesterId channelId limit offset :
  ¬ history_query_raises db channelId (or_default limit 50)
      (or_default offset 0) →
  ∃ rows, getChannelMessages db requesterId channelId limit offset
          = {| status := 200; json := json_messages rows |}.
Proof.
  intros Hr. unfold getChannelMessages, select_channel_messages.
  rewrite bool_decide_eq_false_2 by done. by eexists.
Qed.

(** With distinct timestamps there is one such order, the one the merge
    sort gives. *)
Lemma query_channel_messages_unique db channelId limit offset result :
  distinct_created_at db channelId →
  query_channel_messages db channelId limit offset result →
  select_channel_messages db channelId limit offset = Some result.
Proof.
  intros Hd (Hr & ordered & Hp & Hs & ->). unfold select_channel_messages.
  rewrite bool_decide_eq_false_2 by done. do 3 f_equal.
  apply (Sorted_unique_strong created_at_desc).
  - intros x1 x2 H1 H2 R1 R2.
    apply (NoDup_fmap_eq (λ d, m_created_at (md_message d))
             (channel_messages db channelId)); [done|..].
    + by rewrite merge_sort_Permutation in H1.
    + by rewrite Hp in H2.
    + unfold created_at_desc in *. lia.
  - apply Sorted_merge_sort; apply _.
  - done.
  - by rewrite merge_sort_Permutation, Hp.
Qed.

Lemma history_answers_unique db requesterId channelId limit offset rows :
  distinct_created_at db channelId →
  history_answers db channelId limit offset rows →
  getChannelMessages db requesterId channelId limit offset
  = {| status := 200; json := json_messages rows |}.
Proof.
  intros Hd (result & Hq & ->). unfold getChannelMessages.
  by rewrite (query_channel_messages_unique _ _ _ _ _ Hd Hq).
Qed.

(** What every admissible answer holds. *)
Lemma history_answers_spec db channelId limit offset rows :
  history_answers db channelId limit offset rows →
  length rows
  = (Z.to_nat (or_default limit 50)
     `min` (length (channel_messages db channelId)
            - Z.to_nat (or_default offset 0)))%nat
  ∧ Forall (λ x, m_channel_id (md_message x) = channelId) rows
  ∧ rows ⊆+ channel_messages db channelId
  ∧ Sorted (flip created_at_desc) rows
  ∧ (or_default offset 0 = 0 →
     ∀ d d', d ∈ rows → d' ∈ channel_messages db channelId → (d' ∉ rows) →
             m_created_at (md_message d') ≤ m_created_at (md_message d)).
Proof.
  intros (result & (Hr & ordered & Hp & Hs & ->) & ->).
  set (l := Z.to_nat (or_default limit 50)).
  set (o := Z.to_nat (or_default offset 0)).
  assert (reverse (take l (drop o ordered)) ⊆+ channel_messages db channelId)
    as Hsub.
  { rewrite reverse_Permutation, <- Hp. apply sublist_submseteq.
    etrans; [apply sublist_take | apply sublist_drop]. }
  apply Sorted_StronglySorted in Hs; [|apply _].
  split; [|split; [|split; [|split]]].
  - rewrite length_reverse, length_take, length_drop.
    by rewrite (Permutation_length Hp).
  - apply Forall_forall. intros d Hd.
    apply (elem_of_submseteq _ _ _ Hd) in Hsub.
    by apply list_elem_of_filter in Hsub as [Hc _].
  - done.
  - apply Sorted_reverse, StronglySorted_Sorted.
    rewrite <- (take_drop o ordered) in Hs.
    apply StronglySorted_app_1_r in Hs.
    rewrite <- (take_drop l (drop o ordered)) in Hs.
    by apply StronglySorted_app_1_l in Hs.
  - intros Ho d d' Hd Hd' Hnot. subst o. rewrite Ho in *.
    change (Z.to_nat 0) with 0%nat in *. rewrite drop_0 in *.
    rewrite elem_of_reverse in Hd, Hnot.
    rewrite <- (take_drop l ordered) in Hs.
    apply (StronglySorted_app_1_elem_of _ _ _ d d' Hs Hd).
    assert (d' ∈ ordered) as Hin by (by rewrite Hp).
    rewrite <- (take_drop l ordered) in Hin.
    by apply elem_of_app in Hin as [Hin|Hin].
Qed.

(** Pages of any one order fit together. *)
Lemma pages_compose (ordered : list message_data) (n k : nat) :
  reverse (take (n + k) ordered)
  = reverse (take k (drop n ordered)) ++ reverse (take n ordered).
Proof. by rewrite <- reverse_app, take_take_drop. Qed.

End history_relation.

(** X17.  History pages fit together when no two messages of the channel
    have the same timestamp: for positive [n] and [k], the newest [n + k]
    messages are the page of [k] messages at offset [n] followed by the
    page of the newest [n], so paging by offset neither skips nor repeats a
    message.  This holds of the three answers of [getChannelMessages] and
    of any three answers the queries may give.  (With equal timestamps
    each query may order the ties in its own way; see
    [history_pages_with_ties].) *)
Theorem history_pages_compose (db : database) (requesterId channelId : Z)
    (n k : Z) :
  0 < n → 0 < k → n + k ≤ 9223372036854775807 →
  distinct_created_at db channelId →
  (∀ all older newest,
     history_answers db channelId (Some (n + k)) None all →
     history_answers db channelId (Some k) (Some n) older →
     history_answers db channelId (Some n) None newest →
     all = older ++ newest)
  ∧ history (getChannelMessages db requesterId channelId (Some (n + k)) None)
    = history (getChannelMessages db requesterId channelId (Some k) (Some n))
      ++ history (getChannelMessages db requesterId channelId (Some n) None).
Proof.
  intros Hn Hk Hmax Hd.
  assert (∀ z, 0 < z → or_default (Some z) 50 = z) as Hlimit
    by (intros z Hz; by destruct z).
  assert (or_default (Some n) 0 = n) as Hoffset by (by destruct n).
  assert (∀ l o, select_channel_messages db channelId l o
                 = if bool_decide (history_query_raises db channelId l o)
                   then None
                   else Some (take (Z.to_nat l)
                                (drop (Z.to_nat o)
                                   (merge_sort created_at_desc
                                      (channel_messages db channelId)))))
    as Hsel by done.
  assert (Z.to_nat (n + k) = (Z.to_nat n + Z.to_nat k)%nat) as Hnk by lia.
  split.
  - intros all older newest (r1 & H1 & ->) (r2 & H2 & ->) (r3 & H3 & ->).
    apply (query_channel_messages_unique _ _ _ _ _ Hd) in H1, H2, H3.
    rewrite Hlimit in H1, H2, H3 by lia. rewrite Hoffset in H2.
    simpl in H1, H3. rewrite Hsel in H1, H2, H3.
    case_bool_decide; [done|]. case_bool_decide; [done|].
    case_bool_decide; [done|].
    injection H1 as <-. injection H2 as <-. injection H3 as <-.
    rewrite Hnk, !drop_0. apply pages_compose.
  - unfold getChannelMessages. rewrite !Hlimit, Hoffset by lia.
    simpl. rewrite !Hsel.
    assert (∀ l o, 0 ≤ l ≤ 9223372036854775807 →
                   0 ≤ o ≤ 9223372036854775807 →
                   history_query_raises db channelId l o
                   ↔ channel_messages db channelId = []
                     ∧ ¬ Sql.int4 channelId) as Hraises.
    { intros l o Hl Ho. unfold history_query_raises, Sql.int8. split.
      - intros [?|[?|[?|[?|?]]]]; first [lia | done].
      - intros ?. by do 4 right. }
    destruct (decide (channel_messages db channelId = []
                      ∧ ¬ Sql.int4 channelId)) as [Hr|Hr].
    + rewrite !bool_decide_eq_true_2 by (apply Hraises; [lia | lia | done]).
      done.
    + rewrite !bool_decide_eq_false_2
        by (intros Hx; apply Hraises in Hx; [done | lia | lia]).
      unfold history; simpl.
      rewrite Hnk, !drop_0. apply pages_compose.
Qed.

Lemma history_pages_compose_witness :
  history (getChannelMessages (pool (run Scenario.chatting Scenario.talk))
             3 1 (Some (1 + 1)) None)
  = history (getChannelMessages (pool (run Scenario.chatting Scenario.talk))
               3 1 (Some 1) (Some 1))
    ++ history (getChannelMessages (pool (run Scenario.chatting Scenario.talk))
                  3 1 (Some 1) None).
Proof.
  apply (history_pages_compose (pool (run Scenario.chatting Scenario.talk))
           3 1 1 1); [lia | lia | lia |].
  unfold distinct_created_at.
  apply (bool_decide_unpack _). vm_compute. exact I.
Defined.

(** Two messages stored at the same instant: the query for the first page
    and the query for the second may each put a different one first, and
    then both pages hold the same message. *)
Example history_pages_with_ties :
  let db := pool (run Scenario.chatting
                    [ on_send_message 10%nat 1 Scenario.hi 200;
                      on_send_message 20%nat 1 Scenario.blank 200 ]) in
  let a := {| md_message :=
                {| m_id := 1; m_channel_id := 1; m_user_id := 1;
                   m_content := Scenario.hi; m_created_at := 200 |};
              md_username := "alice"; md_avatar_color := "#1976d2" |} in
  let b := {| md_message :=
                {| m_id := 2; m_channel_id := 1; m_user_id := 2;
                   m_content := Scenario.blank; m_created_at := 200 |};
              md_username := "bob"; md_avatar_color := "#388e3c" |} in
  channel_messages db 1 = [a; b]
  ∧ history_answers db 1 (Some 2) None [b; a]
  ∧ history_answers db 1 (Some 1) (Some 1) [a]
  ∧ history_answers db 1 (Some 1) None [a]
  ∧ [b; a] ≠ [a] ++ [a].
Proof.
  intros db a b.
  assert (channel_messages db 1 = [a; b]) as Hrows by (vm_compute; reflexivity).
  clearbody db.
  assert (∀ l o, 0 ≤ l ≤ 2 → 0 ≤ o ≤ 2 → ¬ history_query_raises db 1 l o)
    as Hr.
  { intros l o Hl Ho. unfold history_query_raises, Sql.int8. rewrite Hrows.
    intros [?|[?|[?|[?|[? _]]]]]; first [lia | done]. }
  assert (Sorted created_at_desc [a; b]) as Hab
    by (repeat constructor; unfold created_at_desc; simpl; lia).
  assert (Sorted created_at_desc [b; a]) as Hba
    by (repeat constructor; unfold created_at_desc; simpl; lia).
  split; [exact Hrows|]. split; [|split; [|split]].
  - exists [a; b]. split; [|reflexivity]. split; [apply Hr; simpl; lia|].
    exists [a; b]. rewrite Hrows. split; [reflexivity|].
    split; [exact Hab | reflexivity].
  - exists [a]. split; [|reflexivity]. split; [apply Hr; simpl; lia|].
    exists [b; a]. rewrite Hrows. split; [apply perm_swap|].
    split; [exact Hba | reflexivity].
  - exists [a]. split; [|reflexivity]. split; [apply Hr; simpl; lia|].
    exists [a; b]. rewrite Hrows. split; [reflexivity|].
    split; [exact Hab | reflexivity].
  - intros H. discriminate H.
Qed.

(** X18.  Unless the query raises, a history request is answered 200, and
    the messages of the answer are one of the lists the query admits.
    Every such list, whichever way rows of equal age were ordered, holds
    [limit] messages (50 when the parameter is absent, not a number, or 0)
    or all that are left after the offset if these are fewer; they are
    messages of the requested channel, none of them repeated, ordered
    oldest first; and with no offset, a message of the channel that was
    left out is not newer than any returned one. *)
Theorem history_newest_oldest_first (db : database)
    (requesterId channelId : Z) (limit offset : option Z) :
  (¬ history_query_raises db channelId (or_default limit 50)
       (or_default offset 0) →
   ∃ rows, getChannelMessages db requesterId channelId limit offset
           = {| status := 200; json := json_messages rows |})
  ∧ (∀ rows,
       getChannelMessages db requesterId channelId limit offset
       = {| status := 200; json := json_messages rows |} →
       history_answers db channelId limit offset rows)
  ∧ (∀ rows,
       history_answers db channelId limit offset rows →
       length rows
       = (Z.to_nat (or_default limit 50)
          `min` (length (channel_messages db channelId)
                 - Z.to_nat (or_default offset 0)))%nat
       ∧ Forall (λ x, m_channel_id (md_message x) = channelId) rows
       ∧ rows ⊆+ channel_messages db channelId
       ∧ Sorted (flip created_at_desc) rows
       ∧ (or_default offset 0 = 0 →
          ∀ d d', d ∈ rows → d' ∈ channel_messages db channelId →
                  (d' ∉ rows) →
                  m_created_at (md_message d')
                  ≤ m_created_at (md_message d))).
Proof.
  split; [apply getChannelMessages_answers|].
  split; [apply getChannelMessages_admissible|].
  apply history_answers_spec.
Qed.

Lemma history_newest_oldest_first_witness :
  history (getChannelMessages (pool (run Scenario.chatting Scenario.talk))
             3 1 None None)
  = [ {| md_message :=
           {| m_id := 1; m_channel_id := 1; m_user_id := 1;
              m_content := Scenario.hi; m_created_at := 200 |};
         md_username := "alice"; md_avatar_color := "#1976d2" |};
      {| md_message :=
           {| m_id := 2; m_channel_id := 1; m_user_id := 2;
              m_content := Scenario.blank; m_created_at := 201 |};
         md_username := "bob"; md_avatar_color := "#388e3c" |} ]
  ∧ length (history (getChannelMessages
                       (pool (run Scenario.chatting Scenario.talk))
                       3 1 None None)) = 2%nat
  ∧ Sorted (flip created_at_desc)
           (history (getChannelMessages
                       (pool (run Scenario.chatting Scenario.talk))
                       3 1 None None)).
Proof.
  destruct (history_newest_oldest_first
              (pool (run Scenario.chatting Scenario.talk)) 3 1 None None)
    as (_ & Hadm & Hspec).
  destruct (Hspec (history (getChannelMessages
                              (pool (run Scenario.chatting Scenario.talk))
                              3 1 None None)))
    as (Hlen & _ & _ & Hsorted & _).
  - apply Hadm. vm_compute; reflexivity.
  - split; [vm_compute; reflexivity|]. split; [|exact Hsorted].
    rewrite Hlen. vm_compute; reflexivity.
Defined.

(** * The member list *)

Global Instance members_order_total : Total members_order.
Proof.
  intros a b. unfold members_order.
  destruct (mi_is_creator a), (mi_is_creator b),
    (Z.le_ge_cases (mi_joined_at a) (mi_joined_at b));
    first [ left; split; intros; solve [congruence | lia]
          | right; split; intros; solve [congruence | lia] ].
Qed.

Global Instance members_order_trans : Transitive members_order.
Proof.
  intros a b c. unfold members_order.
  destruct (mi_is_creator a), (mi_is_creator b), (mi_is_creator c);
    intros [H1 H2] [H3 H4]; split; intros;
    solve [congruence | lia | discriminate (H1 eq_refl)
          | discriminate (H3 eq_refl)
          | specialize (H2 eq_refl); specialize (H4 eq_refl); lia ].
Qed.

Section member_list.
Implicit Types (db : database).

(** The rows of the member list before they are sorted. *)
Lemma elem_of_select_channel_members db channelId d :
  d ∈ select_channel_members db channelId ↔
  ∃ u cm c,
    u ∈ users db ∧ cm ∈ channel_members db ∧ c ∈ channels db
    ∧ cm_user_id cm = u_id u ∧ c_id c = cm_channel_id cm
    ∧ cm_channel_id cm = channelId
    ∧ d = {| mi_id := u_id u; mi_username := u_username u;
             mi_avatar_color := u_avatar_color u;
             mi_joined_at := cm_joined_at cm;
             mi_is_creator := bool_decide (creator_id c = u_id u) |}.
Proof.
  unfold select_channel_members.
  rewrite (merge_sort_Permutation members_order).
  rewrite list_elem_of_fmap. split.
  - intros ([[u cm] c] & -> & Ht). simpl.
    apply list_elem_of_filter in Ht as [Hc Ht]. simpl in Hc.
    apply list_elem_of_bind in Ht as (u' & Ht & Hu).
    apply list_elem_of_bind in Ht as (cm' & Ht & Hcm).
    apply list_elem_of_bind in Ht as (c' & Ht & Hch).
    apply list_elem_of_ret in Ht. injection Ht as -> -> ->.
    apply list_elem_of_filter in Hcm as [Hcmu Hcm].
    apply list_elem_of_filter in Hch as [Hchc Hch].
    exists u', cm', c'. by repeat split.
  - intros (u & cm & c & Hu & Hcm & Hch & Hcmu & Hchc & Hc & ->).
    exists (u, cm, c). split; [done|].
    apply list_elem_of_filter. split; [done|].
    apply list_elem_of_bind. exists u. split; [|done].
    apply list_elem_of_bind. exists cm. split;
      [|by apply list_elem_of_filter].
    apply list_elem_of_bind. exists c. split;
      [|by apply list_elem_of_filter].
    by apply list_elem_of_ret.
Qed.

(** In a sorted list every row is in order with every later row. *)
Lemma StronglySorted_lookup {A} (R : relation A) (l : list A) (i j : nat)
    (x y : A) :
  StronglySorted R l → (i < j)%nat →
  l !! i = Some x → l !! j = Some y → R x y.
Proof.
  intros Hs. revert i j. induction Hs as [|a l Hs IH Hall]; intros i j Hij Hi Hj.
  - done.
  - destruct i as [|i], j as [|j]; try lia; simpl in *.
    + injection Hi as ->. apply (proj1 (Forall_forall _ _) Hall).
      by apply (list_elem_of_lookup_2 _ j).
    + apply (IH i j); [lia | done | done].
Qed.

End member_list.

(** X19.  The member list names exactly the members: a user id occurs in
    the answer of [getChannelMembers] if and only if the user has a
    membership row for the channel and both the user and the channel
    exist.  Who asks plays no part. *)
Theorem getChannelMembers_lists_members (db : database)
    (requesterId channelId userId : Z) :
  (∃ d, d ∈ getChannelMembers db requesterId channelId ∧ mi_id d = userId)
  ↔ isMember db channelId userId = true
    ∧ Sql.select_user db userId ≠ []
    ∧ Sql.select_channel db channelId ≠ [].
Proof.
  unfold getChannelMembers. split.
  - intros (d & Hd & Hid).
    apply elem_of_select_channel_members in Hd
      as (u & cm & c & Hu & Hcm & Hch & Hcmu & Hchc & Hc & ->).
    simpl in Hid. subst userId. repeat split.
    + apply isMember_elem. by exists cm.
    + intros E. assert (u ∈ Sql.select_user db (u_id u)) as Hin
        by (by apply list_elem_of_filter).
      rewrite E in Hin. by apply not_elem_of_nil in Hin.
    + intros E. assert (c ∈ Sql.select_channel db channelId) as Hin
        by (apply list_elem_of_filter; split; [congruence | done]).
      rewrite E in Hin. by apply not_elem_of_nil in Hin.
  - intros (Hm & Hu & Hc).
    apply isMember_elem in Hm as (cm & Hcm & Hcmc & Hcmu).
    destruct (Sql.select_user db userId) as [|u us] eqn:Eu; [done|].
    destruct (Sql.select_channel db channelId) as [|c cs] eqn:Ec; [done|].
    assert (u ∈ Sql.select_user db userId) as Hin by (rewrite Eu; left).
    assert (c ∈ Sql.select_channel db channelId) as Hinc by (rewrite Ec; left).
    apply list_elem_of_filter in Hin as [Hid Hin].
    apply list_elem_of_filter in Hinc as [Hidc Hinc].
    eexists. split.
    + apply elem_of_select_channel_members.
      exists u, cm, c. repeat split; try done; congruence.
    + done.
Qed.

(** X20.  The member list is ordered creator first, then by join time,
    from its first row to its last: of any two rows of the answer, the
    earlier one is a creator row whenever the later one is, and when both
    are of the same kind the earlier one joined no later than the later
    one. *)
Theorem getChannelMembers_creator_first (db : database)
    (requesterId channelId : Z) :
  ∀ (i j : nat) (di dj : member_info),
    (i < j)%nat →
    getChannelMembers db requesterId channelId !! i = Some di →
    getChannelMembers db requesterId channelId !! j = Some dj →
    (mi_is_creator dj = true → mi_is_creator di = true)
    ∧ (mi_is_creator di = mi_is_creator dj →
       mi_joined_at di ≤ mi_joined_at dj).
Proof.
  intros i j di dj Hij Hi Hj.
  unfold getChannelMembers, select_channel_members in Hi, Hj.
  cbv zeta in Hi, Hj.
  apply (StronglySorted_lookup members_order _ i j di dj
           (StronglySorted_merge_sort members_order _) Hij Hi Hj).
Qed.

Lemma getChannelMembers_creator_first_witness :
  getChannelMembers
    (pool (run Scenario.chatting [ http_joinChannel 3 1 300 ])) 3 1
  = [ {| mi_id := 1; mi_username := "alice"; mi_avatar_color := "#1976d2";
         mi_joined_at := 100; mi_is_creator := true |};
      {| mi_id := 2; mi_username := "bob"; mi_avatar_color := "#388e3c";
         mi_joined_at := 101; mi_is_creator := false |};
      {| mi_id := 3; mi_username := "carol"; mi_avatar_color := "#d32f2f";
         mi_joined_at := 300; mi_is_creator := false |} ]
  ∧ (mi_is_creator
       {| mi_id := 3; mi_username := "carol"; mi_avatar_color := "#d32f2f";
          mi_joined_at := 300; mi_is_creator := false |}
     = mi_is_creator
         {| mi_id := 2; mi_username := "bob"; mi_avatar_color := "#388e3c";
            mi_joined_at := 101; mi_is_creator := false |} →
     101 ≤ 300).
Proof.
  split; [vm_compute; reflexivity|].
  intros Hkind.
  apply (getChannelMembers_creator_first
           (pool (run Scenario.chatting [ http_joinChannel 3 1 300 ])) 3 1
           1%nat 2%nat
           {| mi_id := 2; mi_username := "bob"; mi_avatar_color := "#388e3c";
              mi_joined_at := 101; mi_is_creator := false |}
           {| mi_id := 3; mi_username := "carol";
              mi_avatar_color := "#d32f2f";
              mi_joined_at := 300; mi_is_creator := false |});
    [lia | vm_compute; reflexivity | vm_compute; reflexivity | reflexivity].
Defined.

(** * Accounts *)

Section accounts.
Implicit Types (db : database).

Lemma filter_nil_not_elem {A} (P : A → Prop) `{∀ x, Decision (P x)}
    (l : list A) (x : A) :
  filter P l = [] → x ∈ l → ¬ P x.
Proof.
  intros E Hx HP.
  assert (x ∈ filter P l) as Hin by (by apply list_elem_of_filter).
  rewrite E in Hin. by apply not_elem_of_nil in Hin.
Qed.

Lemma accounts_unique_same db db' :
  users db' = users db → accounts_unique db → accounts_unique db'.
Proof. unfold accounts_unique. by intros ->. Qed.

Lemma step_accounts (st : state) r :
  accounts_unique (pool st) → accounts_unique (pool (step st r)).
Proof.
  intros HU.
  destruct r as [name email color | u name descr now | u c now | u c t
                 | u c l o | sid h | sid | sid c | sid c
                 | sid c content now | sid c b | sid c t]; simpl.
  - destruct (register_effect (pool st) name email color)
      as (_ & _ & _ & [[Hu _]|(row & Hu & _ & Hn & He & _ & Hid & Hfree)]).
    + by apply (accounts_unique_same (pool st)).
    + destruct HU as (Hi & Hnm & Hem). unfold accounts_unique.
      rewrite Hu, !fmap_app. simpl.
      repeat split; apply NoDup_app; (split; [done|]);
        (split; [|apply NoDup_singleton]);
        intros y Hy Hy'; apply list_elem_of_singleton in Hy' as ->;
        apply list_elem_of_fmap in Hy as (x & Hxy & Hx).
      * by apply (filter_nil_not_elem _ _ x Hid Hx).
      * apply (filter_nil_not_elem _ _ x Hfree Hx). right. congruence.
      * apply (filter_nil_not_elem _ _ x Hfree Hx). left. congruence.
  - apply (accounts_unique_same (pool st)); [|done].
    by destruct (createChannel_effect (pool st) u name descr now) as (-> & _).
  - apply (accounts_unique_same (pool st)); [|done].
    by destruct (joinChannel_effect (pool st) u c now) as (-> & _).
  - apply (accounts_unique_same (pool st)); [|done].
    by destruct (removeUserFromChannel_cases (pool st) u c t)
      as [[-> _]|(-> & _)].
  - done.
  - unfold connection. by destruct (authenticate h).
  - done.
  - unfold on_socket. destruct (sockets st !! sid) as [s|]; [|done].
    unfold join_channel.
    destruct (Sql.query_member (pool st) c (userId s)); [|done].
    by case_bool_decide.
  - unfold on_socket. by destruct (sockets st !! sid).
  - unfold on_socket. destruct (sockets st !! sid) as [s|]; [|done].
    apply (accounts_unique_same (pool st)); [|done].
    by destruct (send_message_effect st sid s c content now) as (-> & _).
  - unfold on_socket. destruct (sockets st !! sid) as [s|]; [|done].
    unfold typing.
    destruct (Sql.query_member (pool st) c (userId s)); [|done].
    by case_bool_decide.
  - unfold on_socket. destruct (sockets st !! sid) as [s|]; [|done].
    by rewrite kick_user_from_channel_pool.
Qed.

End accounts.

(** X21.  Registering and reading the profile is a round trip: when
    [register] answers 201 with a user, that user carries the username and
    email that were sent, its id belonged to nobody before, and
    [getProfile] for that id now returns exactly that user. *)
Theorem register_then_getProfile (db : database)
    (username email avatarColor message : string) (user : user_row) :
  (register db username email avatarColor).2
  = {| status := 201; json := json_user message user |} →
  getProfile (register db username email avatarColor).1 (u_id user)
  = profile_user user
  ∧ getProfile db (u_id user) = profile_error 404 "User not found"
  ∧ u_username user = username ∧ u_email user = email
  ∧ u_avatar_color user = avatarColor.
Proof.
  intros Hres.
  destruct (register_effect db username email avatarColor)
    as (_ & _ & _ & [[_ Hno]|(row & Hu & Hr & Hn & He & Hcol & Hid & _)]).
  - rewrite Hres in Hno. by destruct Hno.
  - rewrite Hr in Hres. injection Hres as _ <-.
    unfold getProfile, Sql.select_user in *. rewrite Hu, filter_app, Hid.
    simpl. by rewrite filter_cons, decide_True by done.
Qed.

Lemma register_then_getProfile_witness :
  getProfile (register (pool Scenario.chatting) "dave" "dave@example.org"
                "#7b1fa2").1 4
  = profile_user {| u_id := 4; u_username := "dave";
                    u_email := "dave@example.org";
                    u_avatar_color := "#7b1fa2" |}
  ∧ getProfile (pool Scenario.chatting) 4
    = profile_error 404 "User not found".
Proof.
  destruct (register_then_getProfile (pool Scenario.chatting) "dave"
              "dave@example.org" "#7b1fa2" "User registered successfully"
              {| u_id := 4; u_username := "dave";
                 u_email := "dave@example.org";
                 u_avatar_color := "#7b1fa2" |}) as (Hafter & Hbefore & _).
  - vm_compute; reflexivity.
  - split; [exact Hafter | exact Hbefore].
Defined.

(** X22.  No two accounts ever share an id, a username or an email:
    uniqueness of the three columns survives every sequence of
    requests. *)
Theorem accounts_stay_unique (st : state) (rs : list request) :
  accounts_unique (pool st) → accounts_unique (pool (run st rs)).
Proof.
  revert st. induction rs as [|r rs IH]; intros st HU; [done|].
  simpl. by apply IH, step_accounts.
Qed.

Lemma accounts_stay_unique_witness :
  accounts_unique
    (pool (run Scenario.chatting
             [ http_register "bob" "robert@example.org" "#1976d2";
               http_register "dave" "dave@example.org" "#7b1fa2" ])).
Proof.
  apply (accounts_stay_unique Scenario.chatting).
  repeat split; apply (bool_decide_unpack _); vm_compute; exact I.
Defined.

(** * Further properties of the client *)

Section trimmed.

(** [trim] removes whitespace from both ends and nothing else. *)
Lemma trim_spec (s : js_string) :
  ∃ p q, s = p ++ Js.trim s ++ q
         ∧ Forall (λ c, Js.is_whitespace c = true) p
         ∧ Forall (λ c, Js.is_whitespace c = true) q
         ∧ (Js.trim s ≠ [] →
            ∃ a b, head (Js.trim s) = Some a ∧ last (Js.trim s) = Some b
                   ∧ Js.is_whitespace a = false
                   ∧ Js.is_whitespace b = false).
Proof.
  unfold Js.trim, Js.trimEnd.
  destruct (trimStart_suffix s) as (p & Hs & Hp & Hhd).
  set (t := Js.trimStart s) in *.
  destruct (trimStart_suffix (reverse t)) as (q & Hr & Hq & Hlast).
  set (e := Js.trimStart (reverse t)) in *.
  assert (t = reverse e ++ reverse q) as Ht
    by (by rewrite <- reverse_app, <- Hr, reverse_involutive).
  exists p, (reverse q). repeat split.
  - by rewrite <- Ht.
  - done.
  - by apply Forall_reverse.
  - intros Hne. destruct e as [|b e'] eqn:Ee.
    + by rewrite reverse_nil in Hne.
    + destruct (reverse (b :: e')) as [|a r] eqn:Er; [done|].
      exists a, b. repeat split.
      * rewrite <- Er, last_reverse. done.
      * clearbody e t. by rewrite Ht in Hhd.
      * done.
Qed.

End trimmed.

(** X23.  What the form submits is trimmed: for a message with at least
    one character that is not whitespace, [handleSubmit] in an enabled form
    passes [onSendMessage] the text without its leading and trailing
    whitespace (a non-empty text that begins and ends with a character
    which is not whitespace and is otherwise unchanged), then signals the
    end of typing and clears the form. *)
Theorem handleSubmit_sends_trimmed
    (onSendMessage : js_string → list Client.effect)
    (onTyping : bool → list Client.effect) (f : Client.MessageInput) :
  ¬ Forall (λ c, Js.is_whitespace c = true) (Client.message f) →
  Client.handleSubmit onSendMessage onTyping false f
  = ({| Client.message := []; Client.isTyping := false;
        Client.typingTimeout := false |},
     onSendMessage (Js.trim (Client.message f)) ++ onTyping false)
  ∧ ∃ p q a b,
      Client.message f = p ++ Js.trim (Client.message f) ++ q
      ∧ Forall (λ c, Js.is_whitespace c = true) p
      ∧ Forall (λ c, Js.is_whitespace c = true) q
      ∧ head (Js.trim (Client.message f)) = Some a
      ∧ last (Js.trim (Client.message f)) = Some b
      ∧ Js.is_whitespace a = false ∧ Js.is_whitespace b = false.
Proof.
  intros Hnb.
  assert (Js.truthy (Js.trim (Client.message f)) = true) as Ht.
  { destruct (Js.truthy (Js.trim (Client.message f))) eqn:E; [done|].
    by apply trim_falsy in E. }
  split.
  - unfold Client.handleSubmit. by rewrite Ht.
  - destruct (trim_spec (Client.message f)) as (p & q & Hs & Hp & Hq & Hends).
    destruct Hends as (a & b & Ha & Hb & Hwa & Hwb).
    { intros E. by rewrite E in Ht. }
    by exists p, q, a, b.
Qed.

Lemma handleSubmit_sends_trimmed_witness :
  Client.handleSubmit (λ content, [Client.emit_send_message 1 content])
    (λ b, [Client.emit_typing 1 b]) false
    {| Client.message := [32; 104; 105; 10]%N; Client.isTyping := true;
       Client.typingTimeout := true |}
  = ({| Client.message := []; Client.isTyping := false;
        Client.typingTimeout := false |},
     [ Client.emit_send_message 1 (Js.trim [32; 104; 105; 10]%N);
       Client.emit_typing 1 false ]).
Proof.
  apply (handleSubmit_sends_trimmed
           (λ content, [Client.emit_send_message 1 content])
           (λ b, [Client.emit_typing 1 b])
           {| Client.message := [32; 104; 105; 10]%N;
              Client.isTyping := true; Client.typingTimeout := true |}).
  intros H. apply Forall_cons in H as [_ H]. apply Forall_cons in H as [H _].
  vm_compute in H. discriminate H.
Defined.

(** X24.  The chat room never lists a message twice: [handleNewMessage]
    keeps the messages it had, in order, adds a message whose id is new at
    the end and ignores one whose id is already listed; so ids that were
    distinct stay distinct however often and in whatever order messages
    are delivered, and every delivered message is then listed. *)
Theorem handleNewMessage_no_duplicates (prev : list message_data)
    (deliveries : list message_data) :
  NoDup ((λ m, m_id (md_message m)) <$> prev) →
  NoDup ((λ m, m_id (md_message m))
           <$> foldl View.handleNewMessage prev deliveries)
  ∧ prev `prefix_of` foldl View.handleNewMessage prev deliveries
  ∧ ∀ m, m ∈ deliveries →
         m_id (md_message m)
         ∈ (λ m, m_id (md_message m))
             <$> foldl View.handleNewMessage prev deliveries.
Proof.
  revert prev. induction deliveries as [|m ms IH]; intros prev Hnd; simpl.
  - split; [done|]. split; [done|].
    intros m Hm. by apply not_elem_of_nil in Hm.
  - assert (NoDup ((λ m, m_id (md_message m))
                     <$> View.handleNewMessage prev m)
            ∧ prev `prefix_of` View.handleNewMessage prev m
            ∧ m_id (md_message m)
              ∈ (λ m, m_id (md_message m)) <$> View.handleNewMessage prev m)
      as (Hnd1 & Hpre1 & Hin1).
    { unfold View.handleNewMessage. case_bool_decide as He.
      - split; [done|]. split; [done|].
        apply Exists_exists in He as (x & Hx & Hid).
        apply list_elem_of_fmap. by exists x.
      - split; [|split].
        + rewrite fmap_app. apply NoDup_app. split; [done|]. split.
          * intros y Hy Hy'. apply list_elem_of_singleton in Hy' as ->.
            apply list_elem_of_fmap in Hy as (x & Hid & Hx).
            apply He, Exists_exists. by exists x.
          * apply NoDup_singleton.
        + by apply prefix_app_r.
        + rewrite fmap_app. apply elem_of_app. right. by left. }
    destruct (IH _ Hnd1) as (Hnd2 & Hpre2 & Hin2).
    split; [done|]. split; [by etrans|].
    intros x Hx. apply elem_of_cons in Hx as [->|Hx]; [|by apply Hin2].
    destruct Hpre2 as [k ->]. rewrite fmap_app. apply elem_of_app. by left.
Qed.

Lemma handleNewMessage_no_duplicates_witness :
  NoDup ((λ m, m_id (md_message m))
           <$> foldl View.handleNewMessage
                 (history (getChannelMessages
                             (pool (run Scenario.chatting Scenario.talk))
                             1 1 None None))
                 (history (getChannelMessages
                             (pool (run Scenario.chatting Scenario.talk))
                             1 1 None None))).
Proof.
  apply (handleNewMessage_no_duplicates
           (history (getChannelMessages
                       (pool (run Scenario.chatting Scenario.talk))
                       1 1 None None))).
  apply (bool_decide_unpack _). vm_compute. exact I.
Defined.

Section typing_users.
Implicit Types (user : option string) (prev : list string).

Lemma handleUserTyping_keeps user prev username isTyping :
  NoDup prev → (∀ n, user = Some n → n ∉ prev) →
  NoDup (View.handleUserTyping user prev username isTyping)
  ∧ (∀ n, user = Some n →
          n ∉ View.handleUserTyping user prev username isTyping).
Proof.
  intros Hnd Hown. unfold View.handleUserTyping.
  case_bool_decide as Hme; [done|].
  destruct isTyping.
  - case_bool_decide as Hin; [done|]. split.
    + apply NoDup_app. repeat split; [done| |apply NoDup_singleton].
      intros y Hy Hy'. by apply list_elem_of_singleton in Hy' as ->.
    + intros n Hn Hn'. apply elem_of_app in Hn' as [Hn'|Hn'].
      * by apply (Hown n).
      * apply list_elem_of_singleton in Hn' as ->. by apply Hme.
  - split; [by apply NoDup_filter|].
    intros n Hn Hn'. apply list_elem_of_filter in Hn' as [_ Hn'].
    by apply (Hown n).
Qed.

End typing_users.

(** X25.  The list of typing users stays clean: starting from a list
    without repetitions and without the user's own name, after any
    sequence of [user_typing] events the list still has no repetitions
    and never shows the user's own name; a stop event for a name leaves
    the name out, and a start event for somebody else's name leaves it
    in. *)
Theorem handleUserTyping_list (user : option string) (prev : list string)
    (events : list (string * bool)) (username : string) :
  NoDup prev →
  (∀ n, user = Some n → n ∉ prev) →
  NoDup (foldl (λ l e, View.handleUserTyping user l e.1 e.2) prev events)
  ∧ (∀ n, user = Some n →
          n ∉ foldl (λ l e, View.handleUserTyping user l e.1 e.2) prev events)
  ∧ (username
     ∉ View.handleUserTyping user
         (foldl (λ l e, View.handleUserTyping user l e.1 e.2) prev events)
         username false)
  ∧ (user ≠ Some username →
     username
     ∈ View.handleUserTyping user
         (foldl (λ l e, View.handleUserTyping user l e.1 e.2) prev events)
         username true).
Proof.
  intros Hnd Hown.
  assert (NoDup (foldl (λ l e, View.handleUserTyping user l e.1 e.2)
                       prev events)
          ∧ (∀ n, user = Some n →
                  n ∉ foldl (λ l e, View.handleUserTyping user l e.1 e.2)
                        prev events)) as [Hnd' Hown'].
  { revert prev Hnd Hown. induction events as [|[n b] es IH];
      intros prev Hnd Hown; [done|]. simpl.
    destruct (handleUserTyping_keeps user prev n b Hnd Hown).
    by apply IH. }
  repeat split; try done.
  - unfold View.handleUserTyping. case_bool_decide as Hme.
    + by apply Hown'.
    + intros Hin. by apply list_elem_of_filter in Hin as [Hne _].
  - intros Hme. unfold View.handleUserTyping.
    rewrite bool_decide_eq_false_2 by done.
    case_bool_decide; [done|]. apply elem_of_app. right. by left.
Qed.

Lemma handleUserTyping_list_witness :
  NoDup (foldl (λ l e, View.handleUserTyping (Some "alice") l e.1 e.2) []
               [ ("bob", true); ("alice", true); ("bob", true);
                 ("carol", true); ("bob", false) ])
  ∧ ("bob" ∉ View.handleUserTyping (Some "alice")
               (foldl (λ l e, View.handleUserTyping (Some "alice") l e.1 e.2)
                  [] [ ("bob", true); ("alice", true); ("bob", true);
                       ("carol", true); ("bob", false) ])
               "bob" false).
Proof.
  destruct (handleUserTyping_list (Some "alice") []
              [ ("bob", true); ("alice", true); ("bob", true);
                ("carol", true); ("bob", false) ] "bob")
    as (Hnd & _ & Hout & _).
  - apply NoDup_nil_2.
  - intros n _ H. by apply not_elem_of_nil in H.
  - split; [exact Hnd | exact Hout].
Defined.

Section typing_signal.
Implicit Types (r : Client.ChatRoom) (f : Client.MessageInput).

Lemma typing_signals_app (out1 out2 : list Client.effect) :
  Form.typing_signals (out1 ++ out2)
  = Form.typing_signals out1 ++ Form.typing_signals out2.
Proof. apply omap_app. Qed.

(** A chat room either passes every typing flag on to the socket or drops
    them all. *)
Lemma handleTyping_cases r :
  (∃ c, Client.canSendMessages r = true
        ∧ ∀ b, Client.handleTyping r b = [Client.emit_typing c b])
  ∨ (∀ b, Client.handleTyping r b = []).
Proof.
  unfold Client.handleTyping.
  destruct (Client.canSendMessages r); simpl; [|by right].
  destruct (Client.has_socket r); [|by right].
  destruct (Client.channel r) as [c|]; [|by right].
  left. by exists c.
Qed.

Lemma handleSendMessage_no_typing r content :
  Form.typing_signals (Client.handleSendMessage r content) = [].
Proof.
  unfold Client.handleSendMessage.
  destruct (Client.canSendMessages r); simpl; [|done].
  by destruct (Client.has_socket r), (Client.channel r).
Qed.

Lemma run_silent r f es :
  (∀ b, Client.handleTyping r b = []) →
  Form.typing_signals (Form.run r f es).2 = [].
Proof.
  intros Hsilent. revert f. induction es as [|e es IH]; intros f; [done|].
  simpl. destruct (Form.step r f e) as [f1 out1] eqn:E1.
  specialize (IH f1). destruct (Form.run r f1 es) as [f2 out2]. simpl in *.
  rewrite typing_signals_app, IH, app_nil_r.
  destruct e as [value| |]; simpl in E1.
  - unfold Form.handleChange in E1. rewrite Hsilent in E1.
    destruct (negb (Client.canSendMessages r)); [by injection E1 as _ <-|].
    injection E1 as _ <-. by destruct (_ && _).
  - unfold Form.timeout in E1. rewrite Hsilent in E1.
    by destruct (Client.typingTimeout f); injection E1 as _ <-.
  - unfold Client.submit, Client.handleSubmit in E1. rewrite Hsilent in E1.
    destruct (_ || _); injection E1 as _ <-; [done|].
    by rewrite app_nil_r, handleSendMessage_no_typing.
Qed.

Lemma run_separated r f es c :
  Client.canSendMessages r = true →
  (∀ b, Client.handleTyping r b = [Client.emit_typing c b]) →
  Form.starts_separated (Client.isTyping f)
    (Form.typing_signals (Form.run r f es).2) = true.
Proof.
  intros Hcan Hemit. revert f. induction es as [|e es IH]; intros f; [done|].
  simpl. destruct (Form.step r f e) as [f1 out1] eqn:E1.
  specialize (IH f1). destruct (Form.run r f1 es) as [f2 out2]. simpl in *.
  rewrite typing_signals_app.
  destruct e as [value| |]; simpl in E1.
  - unfold Form.handleChange in E1. rewrite Hcan, Hemit in E1. simpl in E1.
    destruct (Client.isTyping f) eqn:Ef; simpl in E1.
    + by injection E1 as <- <-.
    + destruct (Js.truthy (Js.trim value)); injection E1 as <- <-; done.
  - unfold Form.timeout in E1. rewrite Hemit in E1.
    destruct (Client.typingTimeout f); injection E1 as <- <-; [|done].
    simpl in *. by rewrite andb_false_r.
  - unfold Client.submit, Client.handleSubmit in E1.
    rewrite Hcan, Hemit in E1. simpl in E1.
    destruct (Js.truthy (Js.trim (Client.message f))); simpl in E1;
      injection E1 as <- <-; [|done].
    rewrite typing_signals_app, handleSendMessage_no_typing. simpl in *.
    by rewrite andb_false_r.
Qed.

End typing_signal.

(** X26.  The form never signals the start of typing twice in a row: in
    the typing signals a mounted form sends through its chat room, over
    any sequence of text changes, timer expiries and submissions, every
    start is followed by a stop before the next start. *)
Theorem typing_starts_are_separated (r : Client.ChatRoom)
    (es : list Form.event) :
  Form.starts_separated false
    (Form.typing_signals (Form.run r Form.initial es).2) = true.
Proof.
  destruct (handleTyping_cases r) as [(c & Hcan & Hemit)|Hsilent].
  - apply (run_separated r Form.initial es c Hcan Hemit).
  - by rewrite (run_silent r Form.initial es Hsilent).
Qed.

(** A typing session in the running example: the first non-blank change
    starts, further changes are silent, the timer stops, the next change
    starts again and the submission stops. *)
Example typing_session :
  Form.typing_signals
    (Form.run {| Client.channel := Some 1; Client.canSendMessages := true;
                 Client.has_socket := true |}
              Form.initial
              [ Form.change [32]%N; Form.change [32; 104]%N;
                Form.change Scenario.hi; Form.expire;
                Form.change Scenario.hi; Form.submit ]).2
  = [ true; false; true; false ].
Proof. reflexivity. Qed.
